(** * StoreModelValidator: a shallow embedding

    The engine of [src/validator/StoreModelValidator] binds a validatorjs
    rule set to a MobX-observed model and keeps the set of fields that may
    show their errors.  The class is embedded as a state-and-exception
    monad over a [World]: the fields of the instance ([this]) together with
    the part of the JavaScript heap and of the libraries' global state the
    class reads or writes ([Ambient]).

    validatorjs and the MobX [observable] box are collaborators: they are
    taken as parameters ([RuleEngine], [observable]).  A small sample rule
    engine ([Sample]) is used to run the class on examples. *)

From Stdlib Require Import ZArith String.
From stdpp Require Import base option gmap strings list fin_maps.

Local Open Scope Z_scope.

(** ** Values, references and exceptions *)

Abbreviation loc := nat (only parsing).

(** Field values of a (flat) form model. *)
Inductive Value :=
  | VUndefined
  | VNull
  | VBool (b : bool)
  | VNum (n : Z)
  | VStr (s : string).

(** The model [T] handed to the engine: [null], [undefined] or a reference
    to an object on the heap.  [!==] on models is reference identity. *)
Inductive ModelRef :=
  | MUndefined
  | MNull
  | MRef (l : loc).

#[global] Instance ModelRef_eq_dec : EqDecision ModelRef.
Proof. solve_decision. Defined.

(** What a model reference points to: an observable object, or an
    observable map ([isObservableMap] holds of the second only). *)
Inductive ModelObject :=
  | ObservableObject (fields : gmap string Value)
  | ObservableMap (entries : gmap string Value).

Inductive Exn :=
  | ConfigurationError (msg : string)
  | TypeError (msg : string).

Inductive Outcome (A : Type) :=
  | Ok (a : A)
  | Throw (e : Exn).
Arguments Ok {A} a.
Arguments Throw {A} e.

(** JavaScript truthiness, for the conditions the class evaluates. *)
Definition truthy_model (m : ModelRef) : bool :=
  match m with MRef _ => true | _ => false end.

Definition truthy_string (s : option string) : bool :=
  match s with Some s => negb (String.eqb s "") | None => false end.

Definition truthy_bool (b : option bool) : bool := default false b.

(** ** Collaborators *)

(** [navigator.language] and [navigator.userLanguage]. *)
Record Navigator := {
  nav_language : option string;
  nav_userLanguage : option string }.

(** The [LocalizationProvider] interface. *)
Record LocalizationProvider := {
  translate : string → string;
  language : Navigator → option string }.

(** [NoopLocalizationProvider]: [translate] returns its key, [language]
    is [navigator.language || navigator.userLanguage]. *)
Definition NoopLocalizationProvider : LocalizationProvider :=
  {| translate := λ key, key;
     language := λ nav,
       if truthy_string (nav_language nav) then nav_language nav
       else nav_userLanguage nav |}.

(** What validatorjs receives as its input. *)
Inductive Input :=
  | InUndefined
  | InNull
  | InObject (fields : gmap string Value).

Module ValidatorJS.

(** A validator after [check()]: [errors.errors] (field to its ordered
    error strings) and [errorCount]. *)
Record Validator := {
  errors : gmap string (list string);
  errorCount : Z }.

(** [Errors.has]. *)
Definition has (v : Validator) (field : string) : bool :=
  bool_decide (is_Some (errors v !! field)).

(** A validator as [new ValidatorJS(input, rules, customMessages)] leaves
    it, before [check()]: what it captured, the language in force
    included; [setAttributeNames] adds the names. *)
Record Unchecked (R : Type) := {
  u_lang : string;
  u_input : Input;
  u_rules : R;
  u_customMessages : option (gmap string string);
  u_attributeNames : option (gmap string string) }.
Arguments u_lang {R} _.
Arguments u_input {R} _.
Arguments u_rules {R} _.
Arguments u_customMessages {R} _.
Arguments u_attributeNames {R} _.

Definition setAttributeNames {R} (names : option (gmap string string))
    (u : Unchecked R) : Unchecked R :=
  {| u_lang := u_lang u; u_input := u_input u; u_rules := u_rules u;
     u_customMessages := u_customMessages u; u_attributeNames := names |}.

End ValidatorJS.

(** [export type Validation<T> = ValidatorJS.Validator<T>]. *)
Abbreviation Validation := ValidatorJS.Validator (only parsing).

(** validatorjs behind its interface: the rule grammar is its own
    ([RuleSpec]); one pass takes the language in force when the validator
    was constructed, the input, the rules, the custom messages and the
    attribute names (when set), all captured in the unchecked validator,
    and yields the checked validator or raises. *)
Record RuleEngine := {
  RuleSpec : Type;
  run_rules : ValidatorJS.Unchecked RuleSpec → Outcome Validation }.

(** ** Configuration and state *)

Module ValidationConfig.
Record t (R : Type) := {
  model : ModelRef;
  rules : R;
  customErrors : option (gmap string string);
  attributeNames : option (gmap string string);
  manual : option bool;
  localizationProvider : option LocalizationProvider }.
Arguments model {R} _.
Arguments rules {R} _.
Arguments customErrors {R} _.
Arguments attributeNames {R} _.
Arguments manual {R} _.
Arguments localizationProvider {R} _.

Definition set_rules {R} (r : R) (c : t R) : t R :=
  {| model := model c; rules := r; customErrors := customErrors c;
     attributeNames := attributeNames c; manual := manual c;
     localizationProvider := localizationProvider c |}.

Definition set_localizationProvider {R} (p : LocalizationProvider) (c : t R) : t R :=
  {| model := model c; rules := rules c; customErrors := customErrors c;
     attributeNames := attributeNames c; manual := manual c;
     localizationProvider := Some p |}.
End ValidationConfig.

(** The fields of a [StoreModelValidator] instance.  [validation] and
    [dirty] are [undefined] ([None]) until first assigned; [disposer] is
    [undefined] or [null] ([None]) when no observer is installed;
    [validatedFields] is the reference to the instance's [Map]. *)
Record StoreModelValidator (R : Type) := {
  validation : option Validation;
  model : ModelRef;
  disposer : option nat;
  validatedFields : loc;
  dirty : option bool;
  config : ValidationConfig.t R }.
Arguments validation {R} _.
Arguments model {R} _.
Arguments disposer {R} _.
Arguments validatedFields {R} _.
Arguments dirty {R} _.
Arguments config {R} _.

(** What lives outside the instance: the [Map<string, boolean>] objects
    and the model objects of the heap, validatorjs' global language,
    the browser's navigator, and MobX's installed observers (keyed by
    their disposer) with the next disposer to hand out.  A location
    absent from [maps] reads as an empty map. *)
Record Ambient := {
  maps : gmap loc (gmap string bool);
  objects : gmap loc ModelObject;
  lang : string;
  navigator : Navigator;
  observers : gmap nat ModelRef;
  nextDisposer : nat }.

Record World (R : Type) := {
  this : StoreModelValidator R;
  ambient : Ambient }.
Arguments this {R} _.
Arguments ambient {R} _.

Section Updates.
Context {R : Type}.

Definition with_this (f : StoreModelValidator R → StoreModelValidator R)
    (w : World R) : World R :=
  {| this := f (this w); ambient := ambient w |}.

Definition with_ambient (f : Ambient → Ambient) (w : World R) : World R :=
  {| this := this w; ambient := f (ambient w) |}.

Definition set_validation (v : option Validation) (s : StoreModelValidator R) :=
  {| validation := v; model := model s; disposer := disposer s;
     validatedFields := validatedFields s; dirty := dirty s; config := config s |}.

Definition set_model (m : ModelRef) (s : StoreModelValidator R) :=
  {| validation := validation s; model := m; disposer := disposer s;
     validatedFields := validatedFields s; dirty := dirty s; config := config s |}.

Definition set_disposer (d : option nat) (s : StoreModelValidator R) :=
  {| validation := validation s; model := model s; disposer := d;
     validatedFields := validatedFields s; dirty := dirty s; config := config s |}.

Definition set_dirty (d : option bool) (s : StoreModelValidator R) :=
  {| validation := validation s; model := model s; disposer := disposer s;
     validatedFields := validatedFields s; dirty := d; config := config s |}.

Definition set_config (c : ValidationConfig.t R) (s : StoreModelValidator R) :=
  {| validation := validation s; model := model s; disposer := disposer s;
     validatedFields := validatedFields s; dirty := dirty s; config := c |}.
End Updates.

Definition set_maps (m : gmap loc (gmap string bool)) (a : Ambient) : Ambient :=
  {| maps := m; objects := objects a; lang := lang a; navigator := navigator a;
     observers := observers a; nextDisposer := nextDisposer a |}.

Definition set_objects (o : gmap loc ModelObject) (a : Ambient) : Ambient :=
  {| maps := maps a; objects := o; lang := lang a; navigator := navigator a;
     observers := observers a; nextDisposer := nextDisposer a |}.

Definition set_lang (l : string) (a : Ambient) : Ambient :=
  {| maps := maps a; objects := objects a; lang := l; navigator := navigator a;
     observers := observers a; nextDisposer := nextDisposer a |}.

Definition set_observers (o : gmap nat ModelRef) (n : nat) (a : Ambient) : Ambient :=
  {| maps := maps a; objects := objects a; lang := lang a; navigator := navigator a;
     observers := o; nextDisposer := n |}.

(** ** The monad: state passing with exceptions

    A thrown exception keeps the writes made before it, as in JavaScript. *)

Definition M (R A : Type) : Type := World R → Outcome A * World R.

Definition ret {R A} (a : A) : M R A := λ w, (Ok a, w).

Definition bind {R A B} (m : M R A) (k : A → M R B) : M R B :=
  λ w, match m w with
       | (Ok a, w') => k a w'
       | (Throw e, w') => (Throw e, w')
       end.

Definition throw {R A} (e : Exn) : M R A := λ w, (Throw e, w).

Definition gets {R A} (f : World R → A) : M R A := λ w, (Ok (f w), w).

Definition modify {R} (f : World R → World R) : M R unit := λ w, (Ok tt, f w).

Notation "'let*' x ':=' c1 'in' c2" := (bind c1 (λ x, c2))
  (at level 10, x binder, c1 at level 100, c2 at level 200).

(** [for (let x of xs) body(x)]. *)
Fixpoint for_of {R A} (xs : list A) (body : A → M R unit) : M R unit :=
  match xs with
  | [] => ret tt
  | x :: xs' => let* _ := body x in for_of xs' body
  end.

(** ** Operations of the heap's [Map] objects *)

Definition map_at (a : Ambient) (l : loc) : gmap string bool :=
  default ∅ (maps a !! l).

Definition Map_has {R} (l : loc) (key : string) : M R bool :=
  let* a := gets ambient in
  ret (bool_decide (is_Some (map_at a l !! key))).

Definition Map_set {R} (l : loc) (key : string) (value : bool) : M R unit :=
  modify (R := R)
    (with_ambient (λ a, set_maps (<[l := <[key := value]> (map_at a l)]> (maps a)) a)).

Definition Map_clear {R} (l : loc) : M R unit :=
  modify (R := R) (with_ambient (λ a, set_maps (<[l := ∅]> (maps a)) a)).

(** ** MobX: [observe] and its disposer *)

(** [observe(target, listener)]: installs the listener and returns its
    disposer. *)
Definition observe {R} (target : ModelRef) : M R nat :=
  let* a := gets ambient in
  let d := nextDisposer a in
  let* _ := modify (with_ambient (set_observers (<[d := target]> (observers a)) (S d))) in
  ret d.

(** Calling a disposer removes its listener; calling it again does nothing. *)
Definition dispose {R} (d : nat) : M R unit :=
  modify (R := R)
    (with_ambient (λ a, set_observers (delete d (observers a)) (nextDisposer a) a)).

(** A change as MobX reports it: [change.type] and [change.name]. *)
Record IObjectDidChange := {
  change_type : string;
  change_name : option string }.

(** ** The class *)

Section StoreModelValidator.

Variable VJ : RuleEngine.

(** What assigning to the [@observable] field [model] stores for a given
    value: MobX passes the value through its enhancer, which may allocate an
    observable counterpart among the heap's objects. *)
Variable observable : ModelRef → gmap loc ModelObject → ModelRef * gmap loc ModelObject.

Abbreviation R := (RuleSpec VJ).
Abbreviation Eff := (M (RuleSpec VJ)).

(** [ValidatorJS.useLang]. *)
Definition useLang (l : string) : Eff unit :=
  modify (with_ambient (set_lang l)).

(** [new ValidatorJS(input, rules, customMessages)]. *)
Definition new_ValidatorJS (input : Input) (rules : R)
    (customMessages : option (gmap string string)) : Eff (ValidatorJS.Unchecked R) :=
  let* a := gets ambient in
  ret {| ValidatorJS.u_lang := lang a; ValidatorJS.u_input := input;
         ValidatorJS.u_rules := rules;
         ValidatorJS.u_customMessages := customMessages;
         ValidatorJS.u_attributeNames := None |}.

(** [validation.check()]: the validator is filled with its errors, or the
    rule engine raises. *)
Definition check (validation : ValidatorJS.Unchecked R) : Eff Validation :=
  match run_rules VJ validation with
  | Ok checked => ret checked
  | Throw e => throw e
  end.

(** [translateMessageKeys]: every key of [messages] is mapped to the
    translation of the key itself. *)
Definition translateMessageKeys (messages : option (gmap string string))
    : Eff (option (gmap string string)) :=
  let* cfg := gets (λ w, config (this w)) in
  match messages, ValidationConfig.localizationProvider cfg with
  | Some ms, Some provider =>
      ret (Some (foldl (λ translations key, <[key := translate provider key]> translations)
                       ∅ (map_to_list ms).*1))
  | _, _ => ret messages
  end.

(** The plain object built from an observable map by [forEach]. *)
Definition object_of_map (entries : gmap string Value) : gmap string Value :=
  foldl (λ obj kv, <[kv.1 := kv.2]> obj) ∅ (map_to_list entries).

(** [createValidation]. *)
Definition createValidation : Eff (ValidatorJS.Unchecked R) :=
  let* cfg := gets (λ w, config (this w)) in
  let* _ :=
    match ValidationConfig.localizationProvider cfg with
    | Some provider =>
        let* nav := gets (λ w, navigator (ambient w)) in
        match language provider nav with
        | Some lang =>
            if (2 <=? String.length lang)%nat
            then useLang (String.substring 0 2 lang)
            else ret tt
        | None => ret tt
        end
    | None => ret tt
    end in
  let* customMessages := translateMessageKeys (ValidationConfig.customErrors cfg) in
  let* m := gets (λ w, model (this w)) in
  let* objs := gets (λ w, objects (ambient w)) in
  let* validator :=
    match m with
    | MRef l =>
        match objs !! l with
        | Some (ObservableMap entries) =>
            new_ValidatorJS (InObject (object_of_map entries))
                            (ValidationConfig.rules cfg) customMessages
        | Some (ObservableObject fields) =>
            new_ValidatorJS (InObject fields) (ValidationConfig.rules cfg) customMessages
        | None =>
            new_ValidatorJS (InObject ∅) (ValidationConfig.rules cfg) customMessages
        end
    | MNull => new_ValidatorJS InNull (ValidationConfig.rules cfg) customMessages
    | MUndefined => new_ValidatorJS InUndefined (ValidationConfig.rules cfg) customMessages
    end in
  match ValidationConfig.attributeNames cfg with
  | Some names =>
      let* translated := translateMessageKeys (Some names) in
      ret (ValidatorJS.setAttributeNames translated validator)
  | None => ret validator
  end.

(** [reset]. *)
Definition reset : Eff unit :=
  let* validation := createValidation in
  let* checked := check validation in
  let* _ := modify (with_this (set_validation (Some checked))) in
  let* ledger := gets (λ w, validatedFields (this w)) in
  let* _ := Map_clear ledger in
  modify (with_this (set_dirty (Some false))).

(** [setModel]. *)
Definition setModel (m : ModelRef) : Eff unit :=
  let* current := gets (λ w, model (this w)) in
  if bool_decide (current ≠ m) then
    let* objs := gets (λ w, objects (ambient w)) in
    let* _ := modify (with_ambient (set_objects (observable m objs).2)) in
    let* _ := modify (with_this (set_model (observable m objs).1)) in
    let* d := gets (λ w, disposer (this w)) in
    let* _ :=
      match d with
      | Some d =>
          let* _ := dispose d in
          modify (with_this (set_disposer None))
      | None => ret tt
      end in
    let* held := gets (λ w, model (this w)) in
    let* cfg := gets (λ w, config (this w)) in
    let* _ :=
      if truthy_model held && negb (truthy_bool (ValidationConfig.manual cfg))
      then
        let* d := observe held in
        modify (with_this (set_disposer (Some d)))
      else ret tt in
    reset
  else ret tt.

(** [setRules]. *)
Definition setRules (rules : R) : Eff unit :=
  let* _ := modify (with_this (λ s, set_config (ValidationConfig.set_rules rules (config s)) s)) in
  reset.

(** [getModel]. *)
Definition getModel : Eff ModelRef :=
  gets (λ w, model (this w)).

(** Reading a property of [this.validation]; a [TypeError] while the field
    is still [undefined]. *)
Definition read_validation {A} (f : Validation → A) : Eff A :=
  let* v := gets (λ w, validation (this w)) in
  match v with
  | Some v => ret (f v)
  | None => throw (TypeError "Cannot read properties of undefined")
  end.

(** The getters [errors] and [errorCount]. *)
Definition errors : Eff (gmap string (list string)) :=
  read_validation ValidatorJS.errors.

Definition errorCount : Eff Z :=
  read_validation ValidatorJS.errorCount.

(** [markDirty]. *)
Definition markDirty (field : string) : Eff unit :=
  let* ledger := gets (λ w, validatedFields (this w)) in
  let* known := Map_has ledger field in
  if negb known then
    let* _ := Map_set ledger field true in
    modify (with_this (set_dirty (Some true)))
  else ret tt.

(** [fieldValidated]. *)
Definition fieldValidated (field : string) (validation : Validation) : Eff bool :=
  let hasErrors := ValidatorJS.has validation field in
  let* _ := markDirty field in
  let* _ := modify (with_this (set_validation (Some validation))) in
  ret (negb hasErrors).

(** [validateField]. *)
Definition validateField (field : string) : Eff bool :=
  let* validation := createValidation in
  let* checked := check validation in
  fieldValidated field checked.

(** [formValidated]; the loop runs over [Object.keys(validation.errors.errors)]. *)
Definition formValidated (validation : Validation) : Eff bool :=
  let* _ := for_of (map_to_list (ValidatorJS.errors validation)).*1 markDirty in
  let* _ := modify (with_this (set_validation (Some validation))) in
  let* count := errorCount in
  ret (count =? 0).

(** [validateForm]. *)
Definition validateForm : Eff bool :=
  let* validation := createValidation in
  let* checked := check validation in
  formValidated checked.

(** The getter [isValid]. *)
Definition isValid : Eff bool :=
  let* count := errorCount in
  ret (count =? 0).

(** [modelChanged]. *)
Definition modelChanged (change : IObjectDidChange) : Eff unit :=
  if String.eqb (change_type change) "update" || String.eqb (change_type change) "add" then
    match change_name change with
    | Some name =>
        if truthy_string (Some name)
        then let* _ := validateField name in ret tt
        else let* _ := validateForm in ret tt
    | None => let* _ := validateForm in ret tt
    end
  else ret tt.

(** [showErrorsOnField]. *)
Definition showErrorsOnField (field : string) : Eff bool :=
  let* ledger := gets (λ w, validatedFields (this w)) in
  Map_has ledger field.

(** The getter [fieldsThatMayShowErrors]: the reference held in
    [validatedFields]. *)
Definition fieldsThatMayShowErrors : Eff loc :=
  gets (λ w, validatedFields (this w)).

(** The getter [pristine]. *)
Definition pristine : Eff bool :=
  let* d := gets (λ w, dirty (this w)) in
  ret (negb (truthy_bool d)).

(** [new StoreModelValidator(config)], run in the given surroundings: the
    field initialisers first (a fresh [Map] for [validatedFields]), then
    the constructor's body. *)
Definition new_StoreModelValidator (cfg : ValidationConfig.t R) (a : Ambient)
    : Outcome unit * World R :=
  let ledger := fresh (dom (maps a)) in
  let w0 :=
    {| this := {| validation := None; model := MNull; disposer := None;
                  validatedFields := ledger; dirty := None; config := cfg |};
       ambient := set_maps (<[ledger := ∅]> (maps a)) a |} in
  (let* _ :=
     match ValidationConfig.localizationProvider cfg with
     | None =>
         modify (with_this (λ s,
           set_config (ValidationConfig.set_localizationProvider
                         NoopLocalizationProvider (config s)) s))
     | Some _ => ret tt
     end in
   if truthy_model (ValidationConfig.model cfg) then
     setModel (ValidationConfig.model cfg)
   else
     let* validation := createValidation in
     let* checked := check validation in
     modify (with_this (set_validation (Some checked)))) w0.

End StoreModelValidator.

(** ** Observations used in the statements *)

(** The contents of the instance's [Map] of validated fields: the
    Dirty-Field Ledger. *)
Definition ledger {R} (w : World R) : gmap string bool :=
  map_at (ambient w) (validatedFields (this w)).

(** One validation pass as every caller runs it:
    [const validation = this.createValidation(); validation.check();]. *)
Definition evaluation (VJ : RuleEngine) : M (RuleSpec VJ) Validation :=
  let* validation := createValidation VJ in
  check VJ validation.

(** A write a caller makes through a reference to a [Map]. *)
Inductive MapWrite :=
  | WriteSet (key : string) (value : bool)
  | WriteDelete (key : string)
  | WriteClear.

Definition write_through {R} (view : loc) (op : MapWrite) : M R unit :=
  match op with
  | WriteSet key value => Map_set view key value
  | WriteDelete key =>
      modify (R := R)
        (with_ambient (λ a, set_maps (<[view := delete key (map_at a view)]> (maps a)) a))
  | WriteClear => Map_clear view
  end.

(** ** Specification-level descriptions

    Pure readings of what one pass is run on and of what the writes of the
    class leave behind; the lemmas below relate them to the operations. *)

Section Descriptions.
Context {R : Type}.

(** The language [createValidation] selects, if any: the first two
    characters of the provider's language. *)
Definition locale_choice (cfg : ValidationConfig.t R) (nav : Navigator) : option string :=
  match ValidationConfig.localizationProvider cfg with
  | Some provider =>
      match language provider nav with
      | Some lang =>
          if (2 <=? String.length lang)%nat then Some (String.substring 0 2 lang) else None
      | None => None
      end
  | None => None
  end.

Definition lang_in_force (w : World R) : string :=
  default (lang (ambient w)) (locale_choice (config (this w)) (navigator (ambient w))).

(** The world once the language has been selected. *)
Definition localised (w : World R) : World R :=
  with_ambient (set_lang (lang_in_force w)) w.

Definition translated (cfg : ValidationConfig.t R) (messages : option (gmap string string))
    : option (gmap string string) :=
  match messages, ValidationConfig.localizationProvider cfg with
  | Some ms, Some provider =>
      Some (foldl (λ translations key, <[key := translate provider key]> translations)
                  ∅ (map_to_list ms).*1)
  | _, _ => messages
  end.

(** The whole model as validatorjs receives it. *)
Definition snapshot (m : ModelRef) (objs : gmap loc ModelObject) : Input :=
  match m with
  | MRef l =>
      match objs !! l with
      | Some (ObservableMap entries) => InObject (object_of_map entries)
      | Some (ObservableObject fields) => InObject fields
      | None => InObject ∅
      end
  | MNull => InNull
  | MUndefined => InUndefined
  end.

(** The validator one pass checks: the snapshot of the whole model against
    the whole rule spec of the configuration. *)
Definition validator_of (w : World R) : ValidatorJS.Unchecked R :=
  let cfg := config (this w) in
  {| ValidatorJS.u_lang := lang_in_force w;
     ValidatorJS.u_input := snapshot (model (this w)) (objects (ambient w));
     ValidatorJS.u_rules := ValidationConfig.rules cfg;
     ValidatorJS.u_customMessages := translated cfg (ValidationConfig.customErrors cfg);
     ValidatorJS.u_attributeNames :=
       match ValidationConfig.attributeNames cfg with
       | Some names => translated cfg (Some names)
       | None => None
       end |}.

(** The world [markDirty(field)] leaves. *)
Definition marked (field : string) (w : World R) : World R :=
  if bool_decide (is_Some (ledger w !! field)) then w
  else
    with_this (set_dirty (Some true))
      (with_ambient (λ a, set_maps (<[validatedFields (this w) := <[field := true]> (ledger w)]>
                                      (maps a)) a) w).

(** The world [this.validation = validation] leaves. *)
Definition installed (v : Validation) (w : World R) : World R :=
  with_this (set_validation (Some v)) w.

(** The world the body of [reset] leaves once the pass has returned [v]. *)
Definition cleared (v : Validation) (w : World R) : World R :=
  with_this (set_dirty (Some false))
    (with_ambient (λ a, set_maps (<[validatedFields (this w) := ∅]> (maps a)) a)
       (installed v w)).

(** The world [this.config.rules = rules] leaves. *)
Definition with_rules (rules : R) (w : World R) : World R :=
  with_this (λ s, set_config (ValidationConfig.set_rules rules (config s)) s) w.

(** The world [this.model = model] leaves, the box applied. *)
Definition assign_model
    (observable : ModelRef → gmap loc ModelObject → ModelRef * gmap loc ModelObject)
    (m : ModelRef) (w : World R) : World R :=
  with_this (set_model (observable m (objects (ambient w))).1)
    (with_ambient (set_objects (observable m (objects (ambient w))).2) w).

(** The effect of a write on the contents of a map. *)
Definition apply_write (op : MapWrite) (m : gmap string bool) : gmap string bool :=
  match op with
  | WriteSet key value => <[key := value]> m
  | WriteDelete key => delete key m
  | WriteClear => ∅
  end.

End Descriptions.

Section Subscription.
Context {R : Type}.

(** The world the two subscription steps of [setModel] leave: the old
    disposer called and forgotten, then the held model observed unless it
    is absent or the configuration is manual. *)
Definition unsubscribed (w : World R) : World R :=
  match disposer (this w) with
  | Some d =>
      with_this (set_disposer None)
        (with_ambient (λ a, set_observers (delete d (observers a)) (nextDisposer a) a) w)
  | None => w
  end.

Definition subscribed (w : World R) : World R :=
  if truthy_model (model (this w))
     && negb (truthy_bool (ValidationConfig.manual (config (this w))))
  then
    with_this (set_disposer (Some (nextDisposer (ambient w))))
      (with_ambient (λ a, set_observers (<[nextDisposer a := model (this w)]> (observers a))
                                        (S (nextDisposer a)) a) w)
  else w.

End Subscription.

(** ** A sample rule engine

    A stand-in for validatorjs with two rules, enough to run the class:
    [required] fails on an absent, [null], [undefined] or empty value,
    [numeric] fails on a present value that is not a number, and any other
    rule name raises, as validatorjs does for a rule it does not know. *)

Module Sample.

Definition Rules := list (string * list string).

Definition field_of (input : Input) (field : string) : option Value :=
  match input with
  | InObject fields => fields !! field
  | _ => None
  end.

Definition is_empty (v : option Value) : bool :=
  match v with
  | None | Some VUndefined | Some VNull => true
  | Some (VStr s) => String.eqb s ""
  | _ => false
  end.

Definition add_failure (field message : string) (v : Validation) : Validation :=
  {| ValidatorJS.errors :=
       <[field := default [] (ValidatorJS.errors v !! field) ++ [message]]>
         (ValidatorJS.errors v);
     ValidatorJS.errorCount := ValidatorJS.errorCount v + 1 |}.

Definition apply_rule (input : Input) (field rule : string) (v : Validation)
    : Outcome Validation :=
  if String.eqb rule "required" then
    Ok (if is_empty (field_of input field)
        then add_failure field ("The " ++ field ++ " field is required.") v
        else v)
  else if String.eqb rule "numeric" then
    Ok (match field_of input field with
        | Some (VNum _) => v
        | o => if is_empty o then v
               else add_failure field ("The " ++ field ++ " must be a number.") v
        end)
  else Throw (ConfigurationError ("Validator `" ++ rule ++ "` is not defined!")).

Fixpoint apply_rules (input : Input) (field : string) (rules : list string)
    (v : Validation) : Outcome Validation :=
  match rules with
  | [] => Ok v
  | rule :: rest =>
      match apply_rule input field rule v with
      | Ok v' => apply_rules input field rest v'
      | Throw e => Throw e
      end
  end.

Fixpoint check_fields (input : Input) (spec : Rules) (v : Validation)
    : Outcome Validation :=
  match spec with
  | [] => Ok v
  | (field, rules) :: rest =>
      match apply_rules input field rules v with
      | Ok v' => check_fields input rest v'
      | Throw e => Throw e
      end
  end.

Definition engine : RuleEngine :=
  {| RuleSpec := Rules;
     run_rules := λ u,
       check_fields (ValidatorJS.u_input u) (ValidatorJS.u_rules u)
         {| ValidatorJS.errors := ∅; ValidatorJS.errorCount := 0 |} |}.

(** Models are observable already: the box stores the reference it is given. *)
Definition observable (m : ModelRef) (objs : gmap loc ModelObject)
    : ModelRef * gmap loc ModelObject := (m, objs).

(** Two model objects: a filled form at 1, and one with an empty name at 2. *)
Definition filled : gmap string Value :=
  {[ "name" := VStr "Tim"; "age" := VNum 12 ]}.

Definition unnamed : gmap string Value :=
  {[ "name" := VStr ""; "age" := VNum 12 ]}.

Definition surroundings : Ambient :=
  {| maps := ∅;
     objects := {[ 1%nat := ObservableObject filled; 2%nat := ObservableObject unnamed ]};
     lang := "en";
     navigator := {| nav_language := Some "en-US"; nav_userLanguage := None |};
     observers := ∅;
     nextDisposer := 0 |}.

Definition rules_name_age : Rules :=
  [("name", ["required"]); ("age", ["numeric"])].

Definition rules_unknown : Rules :=
  [("name", ["required"; "reqired"])].

Definition config_with (m : ModelRef) (rules : Rules) : ValidationConfig.t Rules :=
  {| ValidationConfig.model := m; ValidationConfig.rules := rules;
     ValidationConfig.customErrors := None; ValidationConfig.attributeNames := None;
     ValidationConfig.manual := None; ValidationConfig.localizationProvider := None |}.

(** A validator constructed on the filled form. *)
Definition started : World Rules :=
  (new_StoreModelValidator engine observable
     (config_with (MRef 1) rules_name_age) surroundings).2.

(** The same after the user touched [name]. *)
Definition touched : World Rules :=
  (validateField engine "name" started).2.

(** A validator constructed on the form with the empty name. *)
Definition started_unnamed : World Rules :=
  (new_StoreModelValidator engine observable
     (config_with (MRef 2) rules_name_age) surroundings).2.

(** The started validator after a [setRules] naming an unknown rule
    raised. *)
Definition misconfigured : World Rules :=
  (setRules engine rules_unknown started).2.

Definition not_defined : Exn :=
  ConfigurationError "Validator `reqired` is not defined!".

(** What a pass finds on the form with the empty name, and on the filled one. *)
Definition name_required : Validation :=
  {| ValidatorJS.errors := {[ "name" := ["The name field is required."] ]};
     ValidatorJS.errorCount := 1 |}.

Definition no_errors : Validation :=
  {| ValidatorJS.errors := ∅; ValidatorJS.errorCount := 0 |}.

End Sample.

(** ** The wrapper component

    [ValidationWrapper.render] of [src/validator/ValidationWrapper]: what
    is rendered around and below the wrapped children, as far as it
    depends on the validator. *)

Module ValidationWrapper.

(** The props read by [render], the validator apart. *)
Record Props (N : Type) := {
  field : string;
  errorClassName : option string;
  errorsRenderer : option (list string → N) }.
Arguments field {N} _.
Arguments errorClassName {N} _.
Arguments errorsRenderer {N} _.

(** [<div className='invalid-msg' key={error}>{error}</div>]. *)
Record InvalidMsg := {
  key : string;
  text : string }.

(** What stands below the children: [false] (nothing), [null], the node
    of the custom renderer, or the list of message elements. *)
Inductive Below (N : Type) :=
  | Hidden
  | Null
  | Custom (node : N)
  | Messages (divs : list InvalidMsg).
Arguments Hidden {N}.
Arguments Null {N}.
Arguments Custom {N} node.
Arguments Messages {N} divs.

(** The rendered wrapper: the class of the inner [div] and what follows it. *)
Record Rendered (N : Type) := {
  className : option string;
  below : Below N }.
Arguments className {N} _.
Arguments below {N} _.

(** [Errors.get]: the messages of the attribute, or an empty array. *)
Definition get (v : Validation) (attribute : string) : list string :=
  if ValidatorJS.has v attribute
  then default [] (ValidatorJS.errors v !! attribute)
  else [].

(** [renderErrors]. *)
Definition renderErrors {N} (props : Props N) (errors : option (list string)) : Below N :=
  match errors with
  | None => Null
  | Some errors =>
      match errorsRenderer props with
      | Some renderer => Custom (renderer errors)
      | None => Messages (map (λ error, {| key := error; text := error |}) errors)
      end
  end.

(** [render]; [&&] evaluates its right operand only when the left one is
    true, so [validation.errors] is read only for a field that may show
    its errors. *)
Definition render (VJ : RuleEngine) {N} (props : Props N) : M (RuleSpec VJ) (Rendered N) :=
  let* validation := gets (λ w, validation (this w)) in
  let* shown := showErrorsOnField VJ (field props) in
  let* showErrors :=
    if shown then
      match validation with
      | Some v => ret (ValidatorJS.has v (field props))
      | None => throw (TypeError "Cannot read properties of undefined")
      end
    else ret false in
  let* messages :=
    if showErrors then
      match validation with
      | Some v => ret (renderErrors props (Some (get v (field props))))
      | None => throw (TypeError "Cannot read properties of undefined")
      end
    else ret Hidden in
  ret {| className :=
           if showErrors then
             Some (if truthy_string (errorClassName props)
                   then default "invalid-field" (errorClassName props)
                   else "invalid-field")
           else None;
         below := messages |}.

End ValidationWrapper.

(** ** Further descriptions *)

Section Invariants.
Context {R : Type}.

(** The world in which the body of the constructor's [if] runs: the field
    initialisers done, the localization provider defaulted. *)
Definition initial (cfg : ValidationConfig.t R) (a : Ambient) : World R :=
  {| this :=
       {| validation := None; model := MNull; disposer := None;
          validatedFields := fresh (dom (maps a)); dirty := None;
          config :=
            match ValidationConfig.localizationProvider cfg with
            | None => ValidationConfig.set_localizationProvider NoopLocalizationProvider cfg
            | Some _ => cfg
            end |};
     ambient := set_maps (<[fresh (dom (maps a)) := ∅]> (maps a)) a |}.

(** The dirty flag tells whether the ledger holds a field. *)
Definition flag_agrees (w : World R) : Prop :=
  truthy_bool (dirty (this w)) = false ↔ ledger w = ∅.

(** The instance has a validation to read. *)
Definition validation_defined (w : World R) : Prop :=
  is_Some (validation (this w)).

(** The disposer the instance keeps, if any, is that of an observer of the
    model it holds, and none is kept for an absent model or under a
    manual configuration. *)
Definition subscription_follows_model (w : World R) : Prop :=
  ∀ d, disposer (this w) = Some d →
       observers (ambient w) !! d = Some (model (this w))
       ∧ truthy_model (model (this w)) = true
       ∧ truthy_bool (ValidationConfig.manual (config (this w))) = false.

(** Whether [setModel] observes the value it has just stored. *)
Definition observes (w : World R) (held : ModelRef) : bool :=
  truthy_model held && negb (truthy_bool (ValidationConfig.manual (config (this w)))).

(** Whether [modelChanged] validates on a change, and whether it
    validates the one field the change names. *)
Definition validates (change : IObjectDidChange) : bool :=
  String.eqb (change_type change) "update" || String.eqb (change_type change) "add".

(** The parts of the world a validation pass has no business with: the
    model held and its objects, the disposer and MobX's observers, the
    reference to the ledger's map, the navigator. *)
Definition untouched (w w' : World R) : Prop :=
  model (this w') = model (this w)
  ∧ disposer (this w') = disposer (this w)
  ∧ validatedFields (this w') = validatedFields (this w)
  ∧ objects (ambient w') = objects (ambient w)
  ∧ observers (ambient w') = observers (ambient w)
  ∧ nextDisposer (ambient w') = nextDisposer (ambient w)
  ∧ navigator (ambient w') = navigator (ambient w).

End Invariants.

(** The two things [ValidationWrapper.render] can give: the children alone,
    or the children under the error class followed by the messages. *)
Definition nothing_shown {N} : ValidationWrapper.Rendered N :=
  {| ValidationWrapper.className := None;
     ValidationWrapper.below := ValidationWrapper.Hidden |}.

Definition errors_shown {N} (props : ValidationWrapper.Props N) (messages : list string)
    : ValidationWrapper.Rendered N :=
  {| ValidationWrapper.className :=
       Some (if truthy_string (ValidationWrapper.errorClassName props)
             then default "invalid-field" (ValidationWrapper.errorClassName props)
             else "invalid-field");
     ValidationWrapper.below := ValidationWrapper.renderErrors props (Some messages) |}.

(** An outcome with its value dropped, as in a statement [f(x);]. *)
Definition discarded {A} (r : Outcome A) : Outcome unit :=
  match r with
  | Ok _ => Ok tt
  | Throw e => Throw e
  end.

(** ** Further sample inputs *)

Module Scenarios.

Definition custom_messages : gmap string string :=
  {[ "required" := "Please fill in :attribute"; "numeric" := "Digits only" ]}.

Definition rules_age : Sample.Rules := [("age", ["numeric"])].

(** A configuration without a model, and one naming an unknown rule. *)
Definition config_no_model : ValidationConfig.t Sample.Rules :=
  Sample.config_with MUndefined Sample.rules_name_age.

Definition config_unknown_rule : ValidationConfig.t Sample.Rules :=
  Sample.config_with (MRef 1) Sample.rules_unknown.

(** The wrapper of [name], with the default class and renderer. *)
Definition name_props : ValidationWrapper.Props unit :=
  {| ValidationWrapper.field := "name";
     ValidationWrapper.errorClassName := None;
     ValidationWrapper.errorsRenderer := None |}.

(** The user typed into [name]; the model was replaced as a whole. *)
Definition name_updated : IObjectDidChange :=
  {| change_type := "update"; change_name := Some "name" |}.

(** The touched validator after a [setRules] naming an unknown rule raised. *)
Definition misconfigured_touched : World Sample.Rules :=
  (setRules Sample.engine Sample.rules_unknown Sample.touched).2.

(** The started validator in a browser that reports no language. *)
Definition started_without_language : World Sample.Rules :=
  with_ambient
    (λ a, {| maps := maps a; objects := objects a; lang := lang a;
             navigator := {| nav_language := None; nav_userLanguage := None |};
             observers := observers a; nextDisposer := nextDisposer a |})
    Sample.started.

End Scenarios.

(** * Properties *)

Local Arguments Nat.leb : simpl never.
Local Arguments String.length : simpl never.
Local Arguments String.substring : simpl never.

Section Properties.

Variable VJ : RuleEngine.
Variable observable : ModelRef → gmap loc ModelObject → ModelRef * gmap loc ModelObject.

Implicit Types (w : World (RuleSpec VJ)) (v : Validation) (f field : string).

(** *** One validation pass *)

Lemma createValidation_run w :
  createValidation VJ w = (Ok (validator_of w), localised w).
Proof.
  destruct w as [[v m d vf dt cfg] [mp ob lg nv os nd]].
  destruct cfg as [cm rl ce an mn lp].
  unfold createValidation, validator_of, localised, lang_in_force, locale_choice,
    translated, snapshot, translateMessageKeys, new_ValidatorJS, useLang, bind, ret,
    gets, modify, with_ambient, set_lang, ValidatorJS.setAttributeNames; simpl.
  destruct lp as [p|]; simpl.
  - destruct (language p nv) as [l|]; simpl;
      [destruct (2 <=? String.length l)%nat; simpl|];
      destruct ce, m as [| |l']; simpl; try destruct (ob !! l') as [[?|?]|]; simpl;
      destruct an; reflexivity.
  - destruct ce, m as [| |l']; simpl; try destruct (ob !! l') as [[?|?]|]; simpl;
      destruct an; reflexivity.
Qed.

Lemma evaluation_run w :
  evaluation VJ w = (run_rules VJ (validator_of w), localised w).
Proof.
  unfold evaluation, bind. rewrite createValidation_run.
  unfold check. destruct (run_rules VJ (validator_of w)); reflexivity.
Qed.

Lemma bind_evaluation {A} (k : Validation → M (RuleSpec VJ) A) w :
  bind (createValidation VJ) (λ validation, bind (check VJ validation) k) w
  = match run_rules VJ (validator_of w) with
    | Ok v => k v (localised w)
    | Throw e => (Throw e, localised w)
    end.
Proof.
  unfold bind at 1. rewrite createValidation_run.
  unfold bind, check. destruct (run_rules VJ (validator_of w)); reflexivity.
Qed.

Lemma lang_in_force_same w1 w2 :
  config (this w1) = config (this w2) →
  navigator (ambient w1) = navigator (ambient w2) →
  lang (ambient w1) = lang_in_force w2 →
  lang_in_force w1 = lang_in_force w2.
Proof.
  unfold lang_in_force. intros -> -> ->.
  destruct (locale_choice _ _); reflexivity.
Qed.

Lemma validator_of_same w1 w2 :
  config (this w1) = config (this w2) →
  model (this w1) = model (this w2) →
  objects (ambient w1) = objects (ambient w2) →
  lang_in_force w1 = lang_in_force w2 →
  validator_of w1 = validator_of w2.
Proof.
  unfold validator_of. intros -> -> -> ->. reflexivity.
Qed.

Lemma localised_idem w : localised (localised w) = localised w.
Proof.
  destruct w as [s [mp ob lg nv os nd]].
  unfold localised, lang_in_force, with_ambient, set_lang; simpl.
  destruct (locale_choice _ _); reflexivity.
Qed.

(** *** The ledger under [markDirty] *)

Lemma markDirty_run f w : markDirty VJ f w = (Ok tt, marked f w).
Proof.
  unfold markDirty, marked, Map_has, Map_set, bind, gets, ret, modify, ledger. simpl.
  destruct (bool_decide _); reflexivity.
Qed.

Lemma marked_this f w :
  validation (this (marked f w)) = validation (this w)
  ∧ validatedFields (this (marked f w)) = validatedFields (this w)
  ∧ model (this (marked f w)) = model (this w)
  ∧ config (this (marked f w)) = config (this w).
Proof. unfold marked. destruct (bool_decide _); auto. Qed.

Lemma ledger_marked f w :
  dom (ledger (marked f w)) = {[ f ]} ∪ dom (ledger w).
Proof.
  unfold marked. case_bool_decide as Hin.
  - apply elem_of_dom in Hin. set_solver.
  - unfold ledger, map_at; simpl. rewrite lookup_insert_eq; simpl.
    apply dom_insert_L.
Qed.

Lemma for_of_markDirty fs w :
  for_of fs (markDirty VJ) w = (Ok tt, foldl (λ w f, marked f w) w fs).
Proof.
  revert w. induction fs as [|f fs IH]; intros w; simpl; [reflexivity|].
  unfold bind. rewrite markDirty_run. apply IH.
Qed.

Lemma marked_all_this fs w :
  validation (this (foldl (λ w f, marked f w) w fs)) = validation (this w)
  ∧ validatedFields (this (foldl (λ w f, marked f w) w fs)) = validatedFields (this w)
  ∧ model (this (foldl (λ w f, marked f w) w fs)) = model (this w)
  ∧ config (this (foldl (λ w f, marked f w) w fs)) = config (this w).
Proof.
  revert w. induction fs as [|f fs IH]; intros w; simpl; [auto|].
  destruct (IH (marked f w)) as (-> & -> & -> & ->). apply marked_this.
Qed.

Lemma ledger_marked_all fs w :
  dom (ledger (foldl (λ w f, marked f w) w fs)) = list_to_set fs ∪ dom (ledger w).
Proof.
  revert w. induction fs as [|f fs IH]; intros w; simpl.
  - set_solver.
  - rewrite IH, ledger_marked. set_solver.
Qed.

Lemma ledger_installed v w : ledger (installed v w) = ledger w.
Proof. reflexivity. Qed.

Lemma ledger_cleared v w : ledger (cleared v w) = ∅.
Proof.
  unfold ledger, cleared, map_at; simpl. rewrite lookup_insert_eq. reflexivity.
Qed.

(** *** The operations, run *)

Lemma reset_run w :
  reset VJ w =
  match run_rules VJ (validator_of w) with
  | Ok v => (Ok tt, cleared v (localised w))
  | Throw e => (Throw e, localised w)
  end.
Proof.
  unfold reset. rewrite bind_evaluation.
  destruct (run_rules VJ (validator_of w)); reflexivity.
Qed.

Lemma validateField_run f w :
  validateField VJ f w =
  match run_rules VJ (validator_of w) with
  | Ok v => (Ok (negb (ValidatorJS.has v f)), installed v (marked f (localised w)))
  | Throw e => (Throw e, localised w)
  end.
Proof.
  unfold validateField. rewrite bind_evaluation.
  destruct (run_rules VJ (validator_of w)) as [v|e]; [|reflexivity].
  unfold fieldValidated, bind. rewrite markDirty_run. reflexivity.
Qed.

Lemma validateForm_run w :
  validateForm VJ w =
  match run_rules VJ (validator_of w) with
  | Ok v =>
      (Ok (ValidatorJS.errorCount v =? 0),
       installed v (foldl (λ w f, marked f w) (localised w)
                      (map_to_list (ValidatorJS.errors v)).*1))
  | Throw e => (Throw e, localised w)
  end.
Proof.
  unfold validateForm. rewrite bind_evaluation.
  destruct (run_rules VJ (validator_of w)) as [v|e]; [|reflexivity].
  unfold formValidated, bind. rewrite for_of_markDirty. reflexivity.
Qed.

Lemma setModel_run m w :
  setModel VJ observable m w =
  if bool_decide (model (this w) ≠ m)
  then reset VJ (subscribed (unsubscribed (assign_model observable m w)))
  else (Ok tt, w).
Proof.
  unfold setModel. unfold bind at 1. unfold gets at 1.
  case_bool_decide; [|reflexivity].
  unfold bind at 1. unfold gets at 1.
  unfold bind at 1. unfold modify at 1.
  unfold bind at 1. unfold modify at 1.
  fold (assign_model observable m w).
  generalize (assign_model observable m w). intros w1.
  unfold bind at 1. unfold gets at 1.
  assert (Hd : (match disposer (this w1) with
                | Some d => bind (dispose d) (λ _, modify (with_this (set_disposer None)))
                | None => ret tt
                end) w1 = (Ok tt, unsubscribed w1)).
  { unfold unsubscribed. destruct (disposer (this w1)); reflexivity. }
  unfold bind at 1. rewrite Hd.
  generalize (unsubscribed w1). intros w2.
  unfold bind at 1. unfold gets at 1.
  unfold bind at 1. unfold gets at 1.
  assert (Hs : (if truthy_model (model (this w2))
                   && negb (truthy_bool (ValidationConfig.manual (config (this w2))))
                then bind (observe (model (this w2)))
                          (λ d, modify (with_this (set_disposer (Some d))))
                else ret tt) w2 = (Ok tt, subscribed w2)).
  { unfold subscribed. destruct (_ && _); reflexivity. }
  unfold bind at 1. rewrite Hs. reflexivity.
Qed.

Lemma resubscribed_same w :
  let w' := subscribed (unsubscribed w) in
  config (this w') = config (this w)
  ∧ model (this w') = model (this w)
  ∧ validatedFields (this w') = validatedFields (this w)
  ∧ objects (ambient w') = objects (ambient w)
  ∧ navigator (ambient w') = navigator (ambient w)
  ∧ lang (ambient w') = lang (ambient w).
Proof.
  unfold subscribed, unsubscribed.
  destruct (disposer (this w)); simpl; destruct (_ && _); simpl; auto 10.
Qed.

Lemma validator_of_resubscribed w :
  validator_of (subscribed (unsubscribed w)) = validator_of w.
Proof.
  destruct (resubscribed_same w) as (Hc & Hm & _ & Ho & Hn & Hl).
  apply validator_of_same; try assumption.
  unfold lang_in_force. rewrite Hc, Hn, Hl. reflexivity.
Qed.

Lemma setRules_run rules w :
  setRules VJ rules w = reset VJ (with_rules rules w).
Proof. reflexivity. Qed.

Lemma validator_of_localised w : validator_of (localised w) = validator_of w.
Proof.
  apply validator_of_same; try reflexivity.
  apply lang_in_force_same; reflexivity.
Qed.

Lemma validator_of_cleared v w :
  validator_of (cleared v (localised w)) = validator_of w.
Proof.
  apply validator_of_same; try reflexivity.
  apply lang_in_force_same; reflexivity.
Qed.

Lemma cleared_again v w :
  cleared v (localised (cleared v (localised w))) = cleared v (localised w).
Proof.
  destruct w as [[v0 m d vf dt cfg] [mp ob lg nv os nd]].
  cbv [cleared installed localised lang_in_force with_this with_ambient
       set_lang set_maps set_dirty set_validation
       this ambient validation model disposer validatedFields dirty config
       maps objects lang navigator observers nextDisposer].
  rewrite insert_insert_eq.
  destruct (locale_choice cfg nv); reflexivity.
Qed.

Lemma pristine_run w :
  pristine VJ w = (Ok (negb (truthy_bool (dirty (this w)))), w).
Proof. reflexivity. Qed.

Lemma showErrorsOnField_run f w :
  showErrorsOnField VJ f w = (Ok (bool_decide (f ∈ dom (ledger w))), w).
Proof.
  unfold showErrorsOnField, Map_has, bind, gets, ret, ledger; simpl.
  do 2 f_equal. apply bool_decide_ext. symmetry. apply elem_of_dom.
Qed.

(** *** The claims *)

(** C1 (as the code has it): for every engine state and every model
    [m] other than the reference the engine holds, when the validation
    pass on the newly held model returns a result [v], [setModel m]
    returns with the Dirty-Field Ledger empty, the engine pristine and [v]
    installed, whatever the ledger and the errors were before, so also
    when [v] carries the same errors as the previous result. *)
Theorem setModel_new_reference_resets w m v :
  model (this w) ≠ m →
  (evaluation VJ (assign_model observable m w)).1 = Ok v →
  ∃ w', setModel VJ observable m w = (Ok tt, w')
        ∧ ledger w' = ∅
        ∧ (pristine VJ w').1 = Ok true
        ∧ validation (this w') = Some v.
Proof.
  intros Hne Hev. rewrite evaluation_run in Hev; simpl in Hev.
  rewrite setModel_run, bool_decide_eq_true_2 by done.
  rewrite reset_run, validator_of_resubscribed, Hev.
  eexists; split; [reflexivity|].
  split; [apply ledger_cleared|]. split; reflexivity.
Qed.

(** C2: whenever the validation pass returns a result [v],
    [validateForm] returns, [v] is the stored validation, and every key of
    the error map of [v] is in the Dirty-Field Ledger, whatever the ledger
    held before the call. *)
Theorem validateForm_marks_error_fields w v :
  (evaluation VJ w).1 = Ok v →
  ∃ w', validateForm VJ w = (Ok (ValidatorJS.errorCount v =? 0), w')
        ∧ validation (this w') = Some v
        ∧ (errors VJ w').1 = Ok (ValidatorJS.errors v)
        ∧ ∀ f, f ∈ dom (ValidatorJS.errors v) →
               f ∈ dom (ledger w') ∧ (showErrorsOnField VJ f w').1 = Ok true.
Proof.
  intros Hev. rewrite evaluation_run in Hev; simpl in Hev.
  rewrite validateForm_run, Hev.
  eexists; split; [reflexivity|]. split; [reflexivity|]. split; [reflexivity|].
  intros f Hf.
  assert (Hin : f ∈ dom (ledger (installed v (foldl (λ w f, marked f w) (localised w)
                                           (map_to_list (ValidatorJS.errors v)).*1)))).
  { rewrite ledger_installed, ledger_marked_all.
    apply elem_of_union_l, elem_of_list_to_set.
    apply elem_of_dom in Hf as [x Hx].
    apply list_elem_of_fmap. exists (f, x). split; [reflexivity|].
    apply elem_of_map_to_list. exact Hx. }
  split; [exact Hin|].
  rewrite showErrorsOnField_run; simpl. rewrite bool_decide_eq_true_2; done.
Qed.

(** C3: [showErrorsOnField f] is exactly membership of [f] in the
    Dirty-Field Ledger and changes nothing; so it is false for a field
    outside the ledger whatever the stored validation says about that field
    (after a [reset] it is false for every field, the errors of the pass
    notwithstanding), and it is true after [validateField f] also when the
    pass found no error on [f]. *)
Theorem showErrorsOnField_is_ledger_membership w f :
  showErrorsOnField VJ f w = (Ok (bool_decide (f ∈ dom (ledger w))), w)
  ∧ (f ∉ dom (ledger w) → (showErrorsOnField VJ f w).1 = Ok false)
  ∧ (∀ v, (evaluation VJ w).1 = Ok v →
          ∃ w', reset VJ w = (Ok tt, w')
                ∧ (errors VJ w').1 = Ok (ValidatorJS.errors v)
                ∧ (showErrorsOnField VJ f w').1 = Ok false)
  ∧ (∀ v, (evaluation VJ w).1 = Ok v → ValidatorJS.has v f = false →
          ∃ w', validateField VJ f w = (Ok true, w')
                ∧ (errors VJ w').1 = Ok (ValidatorJS.errors v)
                ∧ (showErrorsOnField VJ f w').1 = Ok true).
Proof.
  split; [apply showErrorsOnField_run|]. split; [|split].
  - intros Hout. rewrite showErrorsOnField_run; simpl.
    rewrite bool_decide_eq_false_2; done.
  - intros v Hev. rewrite evaluation_run in Hev; simpl in Hev.
    rewrite reset_run, Hev. eexists; split; [reflexivity|]. split; [reflexivity|].
    rewrite showErrorsOnField_run, ledger_cleared; simpl.
    rewrite bool_decide_eq_false_2; [done|]. set_solver.
  - intros v Hev Hok. rewrite evaluation_run in Hev; simpl in Hev.
    rewrite validateField_run, Hev, Hok.
    eexists; split; [reflexivity|]. split; [reflexivity|].
    rewrite showErrorsOnField_run, ledger_installed, ledger_marked; simpl.
    rewrite bool_decide_eq_true_2; [done|]. set_solver.
Qed.

(** C4: whenever the validation pass returns a result [v],
    [validateField f] has checked the validator built by
    [createValidation], whose input is the snapshot of the whole model and
    whose rules are the whole rule spec, neither depending on [f]; it
    stores [v] as the engine's validation, adds [f] to the Dirty-Field
    Ledger, and returns true exactly when [v] has no errors for [f]. *)
Theorem validateField_full_pass w f v :
  (evaluation VJ w).1 = Ok v →
  (∃ u, (createValidation VJ w).1 = Ok u
        ∧ ValidatorJS.u_input u = snapshot (model (this w)) (objects (ambient w))
        ∧ ValidatorJS.u_rules u = ValidationConfig.rules (config (this w))
        ∧ run_rules VJ u = Ok v)
  ∧ ∃ w', validateField VJ f w = (Ok (negb (ValidatorJS.has v f)), w')
          ∧ validation (this w') = Some v
          ∧ dom (ledger w') = {[ f ]} ∪ dom (ledger w)
          ∧ (showErrorsOnField VJ f w').1 = Ok true
          ∧ (negb (ValidatorJS.has v f) = true ↔ ValidatorJS.errors v !! f = None).
Proof.
  intros Hev. rewrite evaluation_run in Hev; simpl in Hev. split.
  - exists (validator_of w). rewrite createValidation_run. auto.
  - rewrite validateField_run, Hev.
    eexists; split; [reflexivity|]. split; [reflexivity|].
    assert (Hdom : dom (ledger (installed v (marked f (localised w))))
                   = {[ f ]} ∪ dom (ledger w)).
    { rewrite ledger_installed, ledger_marked. reflexivity. }
    split; [exact Hdom|]. split.
    + rewrite showErrorsOnField_run, Hdom; simpl.
      rewrite bool_decide_eq_true_2; [done|]. set_solver.
    + unfold ValidatorJS.has. rewrite negb_true_iff, bool_decide_eq_false.
      rewrite eq_None_not_Some. reflexivity.
Qed.

(** C5: whenever the validation pass returns a result [v],
    [validateForm] returns [errorCount == 0] of the stored [v], the getter
    [errorCount] then reads the count of [v] and [isValid] reads the same
    boolean; so when the model satisfies every rule (the pass counts no
    error) [validateForm] returns true, [isValid] is true and [errorCount]
    is 0. *)
Theorem validateForm_agrees_with_errorCount w v :
  (evaluation VJ w).1 = Ok v →
  ∃ w', validateForm VJ w = (Ok (ValidatorJS.errorCount v =? 0), w')
        ∧ (errorCount VJ w').1 = Ok (ValidatorJS.errorCount v)
        ∧ (isValid VJ w').1 = Ok (ValidatorJS.errorCount v =? 0)
        ∧ (ValidatorJS.errorCount v = 0 →
             (validateForm VJ w).1 = Ok true
             ∧ (isValid VJ w').1 = Ok true
             ∧ (errorCount VJ w').1 = Ok 0).
Proof.
  intros Hev. rewrite evaluation_run in Hev; simpl in Hev.
  rewrite validateForm_run, Hev.
  eexists; split; [reflexivity|]. split; [reflexivity|]. split; [reflexivity|].
  intros Hz. simpl. unfold isValid, errorCount, read_validation, bind, gets, ret; simpl.
  rewrite Hz. auto.
Qed.

(** C6: calling [reset] on the state a first [reset] left gives the
    same outcome and the same state as the first call; and when the pass
    returns a result [v], the state [reset] leaves has an empty ledger, the
    pristine flag set, [v] stored, the model and the configuration
    untouched, and the pass run again on it returns [v]. *)
Theorem reset_idempotent w :
  reset VJ (reset VJ w).2 = reset VJ w
  ∧ ∀ v, (evaluation VJ w).1 = Ok v →
      ∃ w', reset VJ w = (Ok tt, w')
            ∧ ledger w' = ∅
            ∧ (pristine VJ w').1 = Ok true
            ∧ validation (this w') = Some v
            ∧ model (this w') = model (this w)
            ∧ config (this w') = config (this w)
            ∧ (evaluation VJ w').1 = Ok v.
Proof.
  split.
  - rewrite (reset_run w).
    destruct (run_rules VJ (validator_of w)) as [v|e] eqn:Hev; simpl.
    + rewrite reset_run, validator_of_cleared, Hev, cleared_again. reflexivity.
    + rewrite reset_run, validator_of_localised, Hev, localised_idem. reflexivity.
  - intros v Hev. rewrite evaluation_run in Hev; simpl in Hev.
    rewrite reset_run, Hev. eexists; split; [reflexivity|].
    split; [apply ledger_cleared|]. do 4 (split; [reflexivity|]).
    rewrite evaluation_run, validator_of_cleared. exact Hev.
Qed.

(** C7 (as the code has it): the getter [fieldsThatMayShowErrors]
    returns the reference the engine keeps in [validatedFields], the ledger
    itself: a write a caller makes through it is a write to the ledger
    (after [set(key, _)] through it [showErrorsOnField key] is true, after
    [clear()] the ledger is empty), while the fields of the instance stay
    as they were.  The getters leave the world, the ledger included,
    unchanged. *)
Theorem fieldsThatMayShowErrors_is_the_ledger w :
  fieldsThatMayShowErrors VJ w = (Ok (validatedFields (this w)), w)
  ∧ (∀ op, write_through (validatedFields (this w)) op w
           = (Ok tt, (write_through (validatedFields (this w)) op w).2)
           ∧ ledger (write_through (validatedFields (this w)) op w).2
             = apply_write op (ledger w)
           ∧ this (write_through (validatedFields (this w)) op w).2 = this w)
  ∧ (∀ key value,
       (showErrorsOnField VJ key
          (write_through (validatedFields (this w)) (WriteSet key value) w).2).1 = Ok true)
  ∧ (∀ f, (showErrorsOnField VJ f w).2 = w)
  ∧ (pristine VJ w).2 = w ∧ (getModel VJ w).2 = w
  ∧ (errors VJ w).2 = w ∧ (errorCount VJ w).2 = w ∧ (isValid VJ w).2 = w.
Proof.
  split_and!.
  - reflexivity.
  - intros op. split_and!.
    + destruct op; reflexivity.
    + destruct op; unfold ledger, map_at; simpl; rewrite lookup_insert_eq; reflexivity.
    + destruct op; reflexivity.
  - intros key value. rewrite showErrorsOnField_run; simpl.
    rewrite bool_decide_eq_true_2; [done|].
    unfold ledger, map_at; simpl. rewrite lookup_insert_eq; simpl.
    rewrite dom_insert_L. set_solver.
  - intros f. rewrite showErrorsOnField_run. reflexivity.
  - reflexivity.
  - reflexivity.
  - unfold errors, read_validation, bind, gets, ret, throw.
    destruct (validation (this w)); reflexivity.
  - unfold errorCount, read_validation, bind, gets, ret, throw.
    destruct (validation (this w)); reflexivity.
  - unfold isValid, errorCount, read_validation, bind, gets, ret, throw.
    destruct (validation (this w)); reflexivity.
Qed.

(** C8: when the validation pass an operation runs raises an
    exception [e] (a [ConfigurationError] of the rule engine among them),
    [validateField] and [validateForm] raise [e]; [setRules] raises [e]
    when the pass under the new rules does; [setModel] raises [e] when the
    pass on the newly held model does (for the reference already held no
    pass is run).  None returns a result. *)
Theorem configuration_error_propagates w e :
  ((evaluation VJ w).1 = Throw e → ∀ f, (validateField VJ f w).1 = Throw e)
  ∧ ((evaluation VJ w).1 = Throw e → (validateForm VJ w).1 = Throw e)
  ∧ (∀ rules, (evaluation VJ (with_rules rules w)).1 = Throw e →
              (setRules VJ rules w).1 = Throw e)
  ∧ (∀ m, model (this w) ≠ m →
          (evaluation VJ (assign_model observable m w)).1 = Throw e →
          (setModel VJ observable m w).1 = Throw e).
Proof.
  split; [|split; [|split]].
  - intros Hev f. rewrite evaluation_run in Hev; simpl in Hev.
    rewrite validateField_run, Hev. reflexivity.
  - intros Hev. rewrite evaluation_run in Hev; simpl in Hev.
    rewrite validateForm_run, Hev. reflexivity.
  - intros rules Hev. rewrite evaluation_run in Hev; simpl in Hev.
    rewrite setRules_run, reset_run, Hev. reflexivity.
  - intros m Hne Hev. rewrite evaluation_run in Hev; simpl in Hev.
    rewrite setModel_run, bool_decide_eq_true_2 by done.
    rewrite reset_run, validator_of_resubscribed, Hev. reflexivity.
Qed.

(** C9: [setModel] called with the reference the engine already
    holds returns at once and leaves the whole world as it was: the ledger,
    the stored validation, the dirty flag, the disposer and MobX's
    observers, and validatorjs' language; this for every rule engine, one
    that raises on every input included, so no pass is run. *)
Theorem setModel_held_reference_is_noop w :
  setModel VJ observable (model (this w)) w = (Ok tt, w).
Proof.
  rewrite setModel_run. rewrite bool_decide_eq_false_2; [reflexivity|]. auto.
Qed.

(** C10: a change whose type is neither ['update'] nor ['add'] makes
    [modelChanged] return at once and leave the whole world as it was: the
    stored validation, hence [errorCount], and the ledger included. *)
Theorem modelChanged_ignores_other_kinds w change :
  change_type change ≠ "update" →
  change_type change ≠ "add" →
  modelChanged VJ change w = (Ok tt, w).
Proof.
  intros Hu Ha. unfold modelChanged.
  apply String.eqb_neq in Hu, Ha. rewrite Hu, Ha. reflexivity.
Qed.

End Properties.

(** * The claims on the sample engine *)

(** C1, witness: the touched validator given the other form. *)
Lemma setModel_new_reference_resets_witness :
  ∃ w', setModel Sample.engine Sample.observable (MRef 2) Sample.touched = (Ok tt, w')
        ∧ ledger w' = ∅
        ∧ (pristine Sample.engine w').1 = Ok true
        ∧ validation (this w') = Some Sample.name_required.
Proof.
  apply (setModel_new_reference_resets Sample.engine Sample.observable
           Sample.touched (MRef 2) Sample.name_required).
  - vm_compute. discriminate.
  - vm_compute. reflexivity.
Defined.

(** C1, as stated, fails: the touched validator holds the model at 1 and
    has [name] in its ledger; [setModel] with that same reference returns
    without a reset, the ledger still holds [name] and the engine is not
    pristine. *)
Lemma setModel_held_reference_keeps_ledger :
  model (this Sample.touched) = MRef 1
  ∧ ledger Sample.touched = {[ "name" := true ]}
  ∧ setModel Sample.engine Sample.observable (MRef 1) Sample.touched
    = (Ok tt, Sample.touched)
  ∧ ledger (setModel Sample.engine Sample.observable (MRef 1) Sample.touched).2 ≠ ∅
  ∧ (pristine Sample.engine
       (setModel Sample.engine Sample.observable (MRef 1) Sample.touched).2).1 = Ok false.
Proof.
  split; [vm_compute; reflexivity|]. split; [vm_compute; reflexivity|].
  split; [vm_compute; reflexivity|]. split; [|vm_compute; reflexivity].
  intros Hempty. apply (f_equal (lookup "name")) in Hempty.
  vm_compute in Hempty. discriminate Hempty.
Qed.

(** C2, witness: the form with the empty name, never touched. *)
Lemma validateForm_marks_error_fields_witness :
  ∃ w', validateForm Sample.engine Sample.started_unnamed = (Ok false, w')
        ∧ validation (this w') = Some Sample.name_required
        ∧ (errors Sample.engine w').1 = Ok (ValidatorJS.errors Sample.name_required)
        ∧ ∀ f, f ∈ dom (ValidatorJS.errors Sample.name_required) →
               f ∈ dom (ledger w') ∧ (showErrorsOnField Sample.engine f w').1 = Ok true.
Proof.
  apply (validateForm_marks_error_fields Sample.engine
           Sample.started_unnamed Sample.name_required).
  vm_compute. reflexivity.
Defined.

(** C3, witness: on the untouched form with the empty name, [name] has an
    error and is not shown; [age] has none and is shown once validated. *)
Lemma showErrorsOnField_is_ledger_membership_witness :
  (showErrorsOnField Sample.engine "name" Sample.started_unnamed).1 = Ok false
  ∧ (∃ w', reset Sample.engine Sample.started_unnamed = (Ok tt, w')
           ∧ (errors Sample.engine w').1 = Ok (ValidatorJS.errors Sample.name_required)
           ∧ (showErrorsOnField Sample.engine "name" w').1 = Ok false)
  ∧ (∃ w', validateField Sample.engine "age" Sample.started_unnamed = (Ok true, w')
           ∧ (errors Sample.engine w').1 = Ok (ValidatorJS.errors Sample.name_required)
           ∧ (showErrorsOnField Sample.engine "age" w').1 = Ok true).
Proof.
  split; [|split].
  - apply (showErrorsOnField_is_ledger_membership Sample.engine
             Sample.started_unnamed "name").
    apply not_elem_of_dom. vm_compute. reflexivity.
  - apply (showErrorsOnField_is_ledger_membership Sample.engine
             Sample.started_unnamed "name").
    vm_compute. reflexivity.
  - apply (showErrorsOnField_is_ledger_membership Sample.engine
             Sample.started_unnamed "age").
    + vm_compute. reflexivity.
    + vm_compute. reflexivity.
Defined.

(** C4, witness: [name] validated on the form with the empty name. *)
Lemma validateField_full_pass_witness :
  (∃ u, (createValidation Sample.engine Sample.started_unnamed).1 = Ok u
        ∧ ValidatorJS.u_input u
          = snapshot (model (this Sample.started_unnamed))
                     (objects (ambient Sample.started_unnamed))
        ∧ ValidatorJS.u_rules u
          = ValidationConfig.rules (config (this Sample.started_unnamed))
        ∧ run_rules Sample.engine u = Ok Sample.name_required)
  ∧ ∃ w', validateField Sample.engine "name" Sample.started_unnamed
          = (Ok (negb (ValidatorJS.has Sample.name_required "name")), w')
          ∧ validation (this w') = Some Sample.name_required
          ∧ dom (ledger w') = {[ "name" ]} ∪ dom (ledger Sample.started_unnamed)
          ∧ (showErrorsOnField Sample.engine "name" w').1 = Ok true
          ∧ (negb (ValidatorJS.has Sample.name_required "name") = true
             ↔ ValidatorJS.errors Sample.name_required !! "name" = None).
Proof.
  apply (validateField_full_pass Sample.engine Sample.started_unnamed
           "name" Sample.name_required).
  vm_compute. reflexivity.
Defined.

(** C5, witness: the filled form satisfies its rules. *)
Lemma validateForm_agrees_with_errorCount_witness :
  (validateForm Sample.engine Sample.started).1 = Ok true
  ∧ ∃ w', (validateForm Sample.engine Sample.started).2 = w'
          ∧ (isValid Sample.engine w').1 = Ok true
          ∧ (errorCount Sample.engine w').1 = Ok 0.
Proof.
  destruct (validateForm_agrees_with_errorCount Sample.engine
              Sample.started Sample.no_errors)
    as (w' & Hrun & _ & _ & Hvalid).
  - vm_compute. reflexivity.
  - destruct Hvalid as (Hret & Hv & Hc); [reflexivity|].
    split; [exact Hret|]. exists w'. rewrite Hrun. auto.
Defined.

(** C6, witness: [reset] on the form with the empty name. *)
Lemma reset_idempotent_witness :
  reset Sample.engine (reset Sample.engine Sample.started_unnamed).2
  = reset Sample.engine Sample.started_unnamed
  ∧ ∃ w', reset Sample.engine Sample.started_unnamed = (Ok tt, w')
          ∧ ledger w' = ∅
          ∧ (pristine Sample.engine w').1 = Ok true
          ∧ validation (this w') = Some Sample.name_required
          ∧ model (this w') = model (this Sample.started_unnamed)
          ∧ config (this w') = config (this Sample.started_unnamed)
          ∧ (evaluation Sample.engine w').1 = Ok Sample.name_required.
Proof.
  split.
  - apply (reset_idempotent Sample.engine Sample.started_unnamed).
  - apply (reset_idempotent Sample.engine Sample.started_unnamed).
    vm_compute. reflexivity.
Defined.

(** C7, as stated, fails: on the started validator the getter returns the
    reference 0, the ledger is empty and [email] is not shown; a [set]
    through that reference puts [email] in the ledger, and
    [showErrorsOnField] then answers true for it. *)
Lemma write_through_view_changes_ledger :
  (fieldsThatMayShowErrors Sample.engine Sample.started).1 = Ok 0%nat
  ∧ ledger Sample.started = ∅
  ∧ (showErrorsOnField Sample.engine "email" Sample.started).1 = Ok false
  ∧ ledger (write_through 0%nat (WriteSet "email" true) Sample.started).2
    = {[ "email" := true ]}
  ∧ ledger (write_through 0%nat (WriteSet "email" true) Sample.started).2
    ≠ ledger Sample.started
  ∧ (showErrorsOnField Sample.engine "email"
       (write_through 0%nat (WriteSet "email" true) Sample.started).2).1 = Ok true.
Proof.
  split; [vm_compute; reflexivity|]. split; [vm_compute; reflexivity|].
  split; [vm_compute; reflexivity|]. split; [vm_compute; reflexivity|].
  split; [|vm_compute; reflexivity].
  intros Hsame. apply (f_equal (lookup "email")) in Hsame.
  vm_compute in Hsame. discriminate Hsame.
Qed.

(** C8, witness: a validator whose rules name an unknown rule. *)
Lemma configuration_error_propagates_witness :
  (∀ f, (validateField Sample.engine f Sample.misconfigured).1
        = Throw Sample.not_defined)
  ∧ (validateForm Sample.engine Sample.misconfigured).1 = Throw Sample.not_defined
  ∧ (setRules Sample.engine Sample.rules_unknown Sample.misconfigured).1
    = Throw Sample.not_defined
  ∧ (setModel Sample.engine Sample.observable (MRef 2) Sample.misconfigured).1
    = Throw Sample.not_defined.
Proof.
  split; [|split; [|split]].
  - apply (configuration_error_propagates Sample.engine Sample.observable
             Sample.misconfigured Sample.not_defined).
    vm_compute. reflexivity.
  - apply (configuration_error_propagates Sample.engine Sample.observable
             Sample.misconfigured Sample.not_defined).
    vm_compute. reflexivity.
  - apply (configuration_error_propagates Sample.engine Sample.observable
             Sample.misconfigured Sample.not_defined).
    vm_compute. reflexivity.
  - apply (configuration_error_propagates Sample.engine Sample.observable
             Sample.misconfigured Sample.not_defined).
    + vm_compute. discriminate.
    + vm_compute. reflexivity.
Defined.

(** C10, witness: the removal of [age] reported to the started validator. *)
Lemma modelChanged_ignores_other_kinds_witness :
  modelChanged Sample.engine
    {| change_type := "remove"; change_name := Some "age" |} Sample.started
  = (Ok tt, Sample.started).
Proof.
  apply (modelChanged_ignores_other_kinds Sample.engine Sample.started
           {| change_type := "remove"; change_name := Some "age" |}).
  - simpl. discriminate.
  - simpl. discriminate.
Defined.

(** * Further properties of the class and of the wrapper *)

Section Further.

Variable VJ : RuleEngine.
Variable observable : ModelRef → gmap loc ModelObject → ModelRef * gmap loc ModelObject.

Implicit Types (w : World (RuleSpec VJ)) (v : Validation) (f field : string).

(** *** Message keys and the snapshot of an observable map *)

Lemma foldl_insert_keys {A} (g : string → A) (ks : list string) (acc : gmap string A) key :
  foldl (λ translations k, <[k := g k]> translations) acc ks !! key
  = if decide (key ∈ ks) then Some (g key) else acc !! key.
Proof.
  revert acc. induction ks as [|k ks IH]; intros acc.
  - destruct (decide (key ∈ [])) as [Hin|_]; [|reflexivity].
    by apply elem_of_nil in Hin.
  - cbn [foldl]. rewrite IH.
    destruct (decide (key ∈ ks)) as [Hin|Hout], (decide (key ∈ k :: ks)) as [Hin'|Hout'];
      try reflexivity.
    + exfalso. apply Hout'. by right.
    + apply elem_of_cons in Hin' as [->|?]; [apply lookup_insert_eq|done].
    + apply lookup_insert_ne. intros ->. apply Hout'. by left.
Qed.

Lemma elem_of_keys {A} (m : gmap string A) key :
  key ∈ (map_to_list m).*1 ↔ is_Some (m !! key).
Proof.
  rewrite list_elem_of_fmap. split.
  - intros [[k x] [-> Hin]]. apply elem_of_map_to_list in Hin. eauto.
  - intros [x Hx]. exists (key, x). split; [reflexivity|].
    apply elem_of_map_to_list. exact Hx.
Qed.

Lemma foldl_insert_pairs {A} (l : list (string * A)) (acc : gmap string A) :
  NoDup l.*1 →
  foldl (λ obj kv, <[kv.1 := kv.2]> obj) acc l = list_to_map l ∪ acc.
Proof.
  revert acc. induction l as [|[k x] l IH]; intros acc Hnd.
  - cbn [foldl]. rewrite list_to_map_nil, (left_id_L ∅ (∪)). reflexivity.
  - rewrite fmap_cons in Hnd. apply NoDup_cons in Hnd as [Hk Hnd].
    cbn [foldl]. rewrite IH by exact Hnd.
    rewrite list_to_map_cons, <- insert_union_l. symmetry. apply insert_union_r.
    apply not_elem_of_list_to_map_1. exact Hk.
Qed.
(** X1: with a localization provider configured,
    [translateMessageKeys] returns a map with exactly the keys of the
    messages it is given, each mapped to the provider's translation of the
    key itself: the values of the given messages play no part. *)
Theorem translateMessageKeys_translates_keys w (messages : gmap string string) provider :
  ValidationConfig.localizationProvider (config (this w)) = Some provider →
  ∃ translations,
    translateMessageKeys VJ (Some messages) w = (Ok (Some translations), w)
    ∧ ∀ key, translations !! key = (λ _, translate provider key) <$> messages !! key.
Proof.
  intros Hp. unfold translateMessageKeys, bind, gets, ret. rewrite Hp.
  eexists; split; [reflexivity|]. intros key.
  rewrite foldl_insert_keys. destruct (decide _) as [Hin|Hout].
  - apply elem_of_keys in Hin as [x ->]. reflexivity.
  - rewrite lookup_empty. destruct (messages !! key) eqn:Hk; [|reflexivity].
    exfalso. apply Hout, elem_of_keys. eauto.
Qed.

(** X2: the plain object [createValidation] builds from an
    observable map by [forEach] has exactly the entries of the map; so a
    model kept as an observable map gives the same validator as the
    observable object with the same fields. *)
Theorem observable_map_snapshot_keeps_entries (entries : gmap string Value) w l :
  model (this w) = MRef l →
  object_of_map entries = entries
  ∧ (createValidation VJ
       (with_ambient (set_objects (<[l := ObservableMap entries]> (objects (ambient w)))) w)).1
    = (createValidation VJ
         (with_ambient (set_objects (<[l := ObservableObject entries]>
                                       (objects (ambient w)))) w)).1.
Proof.
  intros Hm.
  assert (Hobj : object_of_map entries = entries).
  { unfold object_of_map. rewrite foldl_insert_pairs by apply NoDup_fst_map_to_list.
    rewrite list_to_map_to_list. apply (right_id_L ∅ (∪)). }
  split; [exact Hobj|].
  rewrite !createValidation_run. cbn [fst]. f_equal.
  unfold validator_of, lang_in_force, with_ambient, set_objects; cbn [this ambient objects
    lang navigator]. rewrite Hm. unfold snapshot. rewrite !lookup_insert_eq, Hobj.
  reflexivity.
Qed.

(** *** The ledger under the validating operations *)

Lemma ledger_localised w : ledger (localised w) = ledger w.
Proof. reflexivity. Qed.

Lemma ledger_marked_eq f w :
  ledger (marked f w)
  = if bool_decide (is_Some (ledger w !! f)) then ledger w else <[f := true]> (ledger w).
Proof.
  unfold marked. case_bool_decide; [reflexivity|].
  unfold ledger at 1, map_at; cbn [this ambient with_this with_ambient set_dirty
    validatedFields set_maps maps]. rewrite lookup_insert_eq. reflexivity.
Qed.

Lemma marked_present f w : is_Some (ledger w !! f) → marked f w = w.
Proof. intros H. unfold marked. rewrite bool_decide_eq_true_2; done. Qed.

Lemma ledger_marked_keeps f g b w :
  ledger w !! g = Some b → ledger (marked f w) !! g = Some b.
Proof.
  intros Hg. rewrite ledger_marked_eq. case_bool_decide as Hf; [exact Hg|].
  rewrite lookup_insert_ne; [exact Hg|]. intros ->. apply Hf. eauto.
Qed.

Lemma ledger_marked_all_keeps fs g b w :
  ledger w !! g = Some b → ledger (foldl (λ w f, marked f w) w fs) !! g = Some b.
Proof.
  revert w. induction fs as [|f fs IH]; intros w Hg; [exact Hg|].
  cbn [foldl]. apply IH, ledger_marked_keeps, Hg.
Qed.

Lemma keys_to_set {A} (m : gmap string A) :
  list_to_set (map_to_list m).*1 =@{gset string} dom m.
Proof.
  apply set_eq. intros k. rewrite elem_of_list_to_set, elem_of_keys, elem_of_dom.
  reflexivity.
Qed.

(** X3: [markDirty] is idempotent, and for a field the ledger
    already holds it changes nothing at all: neither the entry of the
    field nor the dirty flag is written. *)
Theorem markDirty_idempotent w f :
  markDirty VJ f (markDirty VJ f w).2 = markDirty VJ f w
  ∧ (is_Some (ledger w !! f) → markDirty VJ f w = (Ok tt, w)).
Proof.
  split.
  - rewrite !markDirty_run. cbn [snd]. f_equal.
    destruct (decide (is_Some (ledger w !! f))) as [Hin|Hout].
    + rewrite (marked_present f w Hin). apply marked_present, Hin.
    + apply marked_present. rewrite ledger_marked_eq, bool_decide_eq_false_2 by exact Hout.
      rewrite lookup_insert_eq. eauto.
  - intros Hin. rewrite markDirty_run, marked_present by exact Hin. reflexivity.
Qed.

(** X4: when the pass returns, [validateField f] writes one entry
    of the ledger at most: the entries of the other fields are as before,
    and [f] keeps the value it had or, if it was absent, is set to true. *)
Theorem validateField_touches_one_entry w f v :
  (evaluation VJ w).1 = Ok v →
  (∀ g, g ≠ f → ledger (validateField VJ f w).2 !! g = ledger w !! g)
  ∧ ledger (validateField VJ f w).2 !! f = Some (default true (ledger w !! f)).
Proof.
  intros Hev. rewrite evaluation_run in Hev; cbn [fst] in Hev.
  rewrite validateField_run, Hev. cbn [snd].
  rewrite ledger_installed, ledger_marked_eq, ledger_localised. split.
  - intros g Hne. case_bool_decide; [reflexivity|].
    apply lookup_insert_ne. congruence.
  - case_bool_decide as Hin.
    + destruct Hin as [b ->]. reflexivity.
    + rewrite lookup_insert_eq. apply eq_None_not_Some in Hin. rewrite Hin. reflexivity.
Qed.

(** X5: when the pass returns [v], the fields of the ledger after
    [validateForm] are exactly those it held before together with the keys
    of the error map of [v]; the entries it held keep their values; and
    for a model without errors the ledger and the dirty flag are as before. *)
Theorem validateForm_marks_exactly_error_fields w v :
  (evaluation VJ w).1 = Ok v →
  dom (ledger (validateForm VJ w).2) = dom (ValidatorJS.errors v) ∪ dom (ledger w)
  ∧ (∀ g b, ledger w !! g = Some b → ledger (validateForm VJ w).2 !! g = Some b)
  ∧ (ValidatorJS.errors v = ∅ →
       ledger (validateForm VJ w).2 = ledger w
       ∧ dirty (this (validateForm VJ w).2) = dirty (this w)).
Proof.
  intros Hev. rewrite evaluation_run in Hev; cbn [fst] in Hev.
  rewrite validateForm_run, Hev. cbn [snd]. split_and!.
  - rewrite ledger_installed, ledger_marked_all, keys_to_set, ledger_localised.
    reflexivity.
  - intros g b Hg. rewrite ledger_installed. apply ledger_marked_all_keeps.
    rewrite ledger_localised. exact Hg.
  - intros ->. rewrite map_to_list_empty. split; reflexivity.
Qed.

(** X6: [validateField] and [validateForm] leave the same
    validation in the instance and the same language in validatorjs, and
    one raises exactly when, and what, the other does: they differ only in
    the fields they mark and in the boolean they return. *)
Theorem field_and_form_store_same_result w f :
  validation (this (validateField VJ f w).2) = validation (this (validateForm VJ w).2)
  ∧ lang (ambient (validateField VJ f w).2) = lang (ambient (validateForm VJ w).2)
  ∧ discarded (validateField VJ f w).1 = discarded (validateForm VJ w).1.
Proof.
  rewrite validateField_run, validateForm_run.
  destruct (run_rules VJ (validator_of w)) as [v|e0]; cbn [fst snd].
  - split; [reflexivity|]. split; [|reflexivity].
    unfold installed, with_this; cbn [ambient].
    generalize (map_to_list (ValidatorJS.errors v)).*1. intros fs.
    assert (Hl : ∀ w1 g, lang (ambient (marked g w1)) = lang (ambient w1)).
    { intros w1 g. unfold marked. destruct (bool_decide _); reflexivity. }
    rewrite Hl. generalize (localised w). intros w1. revert w1.
    induction fs as [|g fs IH]; intros w1; [reflexivity|].
    cbn [foldl]. rewrite <- IH. symmetry. apply Hl.
  - split; [reflexivity|]. split; reflexivity.
Qed.

(** *** Invariants of the instance *)

Lemma modelChanged_run change w :
  modelChanged VJ change w =
  if validates change then
    if truthy_string (change_name change)
    then (discarded (validateField VJ (default "" (change_name change)) w).1,
          (validateField VJ (default "" (change_name change)) w).2)
    else (discarded (validateForm VJ w).1, (validateForm VJ w).2)
  else (Ok tt, w).
Proof.
  unfold modelChanged, validates.
  destruct (_ || _); [|reflexivity].
  destruct (change_name change) as [name|]; cbn [default from_option id].
  - destruct (truthy_string (Some name)); unfold bind.
    + destruct (validateField VJ name w) as [[b|e] w']; reflexivity.
    + destruct (validateForm VJ w) as [[b|e] w']; reflexivity.
  - cbn [truthy_string]. unfold bind.
    destruct (validateForm VJ w) as [[b|e] w']; reflexivity.
Qed.

(** A property kept by the elementary writes is kept by the operations
    that only validate. *)
Lemma kept_by_validation (P : World (RuleSpec VJ) → Prop) :
  (∀ w, P w → P (localised w)) →
  (∀ w f, P w → P (marked f w)) →
  (∀ w v, P w → P (installed v w)) →
  (∀ w v, P w → P (cleared v w)) →
  (∀ w rules, P w → P (with_rules rules w)) →
  ∀ w, P w →
    (∀ f, P (validateField VJ f w).2)
    ∧ P (validateForm VJ w).2
    ∧ P (reset VJ w).2
    ∧ (∀ rules, P (setRules VJ rules w).2)
    ∧ (∀ change, P (modelChanged VJ change w).2).
Proof.
  intros Hloc Hmark Hinst Hclear Hrules w Hw.
  assert (Hfield : ∀ f, P (validateField VJ f w).2).
  { intros f. rewrite validateField_run.
    destruct (run_rules VJ (validator_of w)); cbn [snd]; auto. }
  assert (Hform : P (validateForm VJ w).2).
  { rewrite validateForm_run.
    destruct (run_rules VJ (validator_of w)) as [v|e]; cbn [snd]; [|auto].
    apply Hinst. generalize (map_to_list (ValidatorJS.errors v)).*1. intros fs.
    assert (Hl : P (localised w)) by auto. revert Hl. generalize (localised w).
    induction fs as [|g fs IH]; intros w1 Hw1; cbn [foldl]; auto. }
  assert (Hreset : ∀ w1, P w1 → P (reset VJ w1).2).
  { intros w1 Hw1. rewrite reset_run.
    destruct (run_rules VJ (validator_of w1)); cbn [snd]; auto. }
  split_and!; auto.
  - intros rules. rewrite setRules_run. auto.
  - intros change. rewrite modelChanged_run.
    destruct (validates change); [|exact Hw].
    destruct (truthy_string _); cbn [snd]; auto.
Qed.

(** The same with [setModel], whose subscription steps must keep the
    property too. *)
Lemma kept_by_setModel (P : World (RuleSpec VJ) → Prop) :
  (∀ w, P w → P (localised w)) →
  (∀ w v, P w → P (cleared v w)) →
  (∀ w m, P w → model (this w) ≠ m →
          P (subscribed (unsubscribed (assign_model observable m w)))) →
  ∀ w m, P w → P (setModel VJ observable m w).2.
Proof.
  intros Hloc Hclear Hsub w m Hw. rewrite setModel_run.
  case_bool_decide as Hne; [|exact Hw].
  rewrite reset_run. destruct (run_rules VJ _); cbn [snd]; auto.
Qed.

Lemma flag_agrees_same w w' :
  ledger w' = ledger w → dirty (this w') = dirty (this w) →
  flag_agrees w → flag_agrees w'.
Proof. unfold flag_agrees. intros -> ->. auto. Qed.

Lemma flag_agrees_marked w f : flag_agrees w → flag_agrees (marked f w).
Proof.
  intros Hw. unfold marked. case_bool_decide; [exact Hw|].
  unfold flag_agrees. split; [discriminate|].
  intros Hempty. exfalso. revert Hempty.
  unfold ledger, map_at; cbn [this ambient with_this with_ambient set_dirty
    validatedFields set_maps maps]. rewrite lookup_insert_eq. apply insert_non_empty.
Qed.

Lemma flag_agrees_cleared w v : flag_agrees (cleared v w).
Proof. unfold flag_agrees. rewrite ledger_cleared. split; reflexivity. Qed.

Lemma resubscribed_ledger w m :
  ledger (subscribed (unsubscribed (assign_model observable m w))) = ledger w
  ∧ dirty (this (subscribed (unsubscribed (assign_model observable m w)))) = dirty (this w)
  ∧ validation (this (subscribed (unsubscribed (assign_model observable m w))))
    = validation (this w).
Proof.
  assert (Hl : ledger (assign_model observable m w) = ledger w
               ∧ dirty (this (assign_model observable m w)) = dirty (this w)
               ∧ validation (this (assign_model observable m w)) = validation (this w)).
  { split_and!; reflexivity. }
  destruct Hl as (<- & <- & <-).
  generalize (assign_model observable m w). intros w1.
  unfold subscribed, unsubscribed.
  destruct (disposer (this w1)); destruct (_ && _); split_and!; reflexivity.
Qed.

(** X7: the dirty flag and the ledger stay in step.  If, in a
    state, the engine is pristine exactly when its ledger is empty, then
    the same holds in the state any operation leaves, whether the
    operation returns or raises. *)
Theorem flag_agrees_preserved w :
  flag_agrees w →
  (∀ f, flag_agrees (validateField VJ f w).2)
  ∧ flag_agrees (validateForm VJ w).2
  ∧ flag_agrees (reset VJ w).2
  ∧ (∀ rules, flag_agrees (setRules VJ rules w).2)
  ∧ (∀ change, flag_agrees (modelChanged VJ change w).2)
  ∧ (∀ m, flag_agrees (setModel VJ observable m w).2).
Proof.
  intros Hw.
  destruct (kept_by_validation flag_agrees) with (w := w)
    as (H1 & H2 & H3 & H4 & H5); auto using flag_agrees_marked, flag_agrees_cleared.
  split_and!; auto.
  intros m. apply kept_by_setModel; auto using flag_agrees_cleared.
  intros w1 m1 Hw1 _. destruct (resubscribed_ledger w1 m1) as (Hl & Hd & _).
  apply (flag_agrees_same w1); assumption.
Qed.

(** X8: once the instance has a validation, the getters
    [errorCount], [errors] and [isValid] return (they read it, and
    [isValid] is [errorCount == 0]), and every operation, returning or
    raising, leaves the instance with a validation. *)
Theorem validation_defined_preserved w :
  validation_defined w →
  (∃ v, validation (this w) = Some v
        ∧ errorCount VJ w = (Ok (ValidatorJS.errorCount v), w)
        ∧ errors VJ w = (Ok (ValidatorJS.errors v), w)
        ∧ isValid VJ w = (Ok (ValidatorJS.errorCount v =? 0), w))
  ∧ (∀ f, validation_defined (validateField VJ f w).2)
  ∧ validation_defined (validateForm VJ w).2
  ∧ validation_defined (reset VJ w).2
  ∧ (∀ rules, validation_defined (setRules VJ rules w).2)
  ∧ (∀ change, validation_defined (modelChanged VJ change w).2)
  ∧ (∀ m, validation_defined (setModel VJ observable m w).2).
Proof.
  intros Hw. split.
  { destruct Hw as [v Hv]. exists v. split; [exact Hv|].
    unfold isValid, errorCount, errors, read_validation, bind, gets, ret.
    rewrite Hv. auto. }
  assert (Hmark : ∀ w1 f, validation_defined w1 → validation_defined (marked f w1)).
  { intros w1 f. unfold validation_defined, marked. destruct (bool_decide _); auto. }
  assert (Hinst : ∀ w1 v, validation_defined (installed v w1)).
  { intros w1 v. unfold validation_defined. cbn. eauto. }
  assert (Hclear : ∀ w1 v, validation_defined (cleared v w1)).
  { intros w1 v. unfold validation_defined. cbn. eauto. }
  destruct (kept_by_validation validation_defined) with (w := w)
    as (H1 & H2 & H3 & H4 & H5); auto.
  split_and!; auto.
  intros m. apply kept_by_setModel; auto.
  intros w1 m1 Hw1 _. unfold validation_defined.
  destruct (resubscribed_ledger w1 m1) as (_ & _ & ->). exact Hw1.
Qed.

Lemma resubscribed_follows w :
  subscription_follows_model (subscribed (unsubscribed w)).
Proof.
  assert (Hnone : disposer (this (unsubscribed w)) = None).
  { unfold unsubscribed. destruct (disposer (this w)) eqn:Hd; [reflexivity|exact Hd]. }
  revert Hnone. generalize (unsubscribed w). intros w1 Hnone.
  unfold subscribed, subscription_follows_model.
  destruct (truthy_model (model (this w1))) eqn:Ht,
    (truthy_bool (ValidationConfig.manual (config (this w1)))) eqn:Hm;
    cbn [andb negb]; try (rewrite Hnone; discriminate).
  intros d [= <-]. cbn. rewrite lookup_insert_eq. auto.
Qed.

(** X9: the disposer the instance keeps, if any, belongs to an
    observer of the very model it holds (never of a model it has let go),
    and none is kept for an absent model or under a manual configuration:
    every operation keeps this, and [setModel] with a new reference
    establishes it. *)
Theorem subscription_follows_model_preserved w :
  (∀ m, model (this w) ≠ m →
        subscription_follows_model (setModel VJ observable m w).2)
  ∧ (subscription_follows_model w →
       (∀ f, subscription_follows_model (validateField VJ f w).2)
       ∧ subscription_follows_model (validateForm VJ w).2
       ∧ subscription_follows_model (reset VJ w).2
       ∧ (∀ rules, subscription_follows_model (setRules VJ rules w).2)
       ∧ (∀ change, subscription_follows_model (modelChanged VJ change w).2)
       ∧ (∀ m, subscription_follows_model (setModel VJ observable m w).2)).
Proof.
  assert (Hloc : ∀ w1, subscription_follows_model w1 →
                       subscription_follows_model (localised w1)) by auto.
  assert (Hmark : ∀ w1 f, subscription_follows_model w1 →
                          subscription_follows_model (marked f w1)).
  { intros w1 f. unfold marked. destruct (bool_decide _); auto. }
  assert (Hclear : ∀ w1 v, subscription_follows_model w1 →
                           subscription_follows_model (cleared v w1)) by auto.
  split.
  - intros m Hne. rewrite setModel_run, bool_decide_eq_true_2 by exact Hne.
    rewrite reset_run. destruct (run_rules VJ _); cbn [snd].
    + apply Hclear, Hloc, resubscribed_follows.
    + apply Hloc, resubscribed_follows.
  - intros Hw.
    destruct (kept_by_validation subscription_follows_model) with (w := w)
      as (H1 & H2 & H3 & H4 & H5); auto.
    split_and!; auto.
    intros m. apply kept_by_setModel; auto.
    intros w1 m1 _ _. apply resubscribed_follows.
Qed.

(** X10: validating never touches the model or the subscription:
    after [validateField], [validateForm], [reset], [setRules] or
    [modelChanged], returning or raising, the model held, the heap's model
    objects, the disposer and MobX's observers are as they were. *)
Theorem validation_keeps_model_and_subscription w :
  (∀ f, untouched w (validateField VJ f w).2)
  ∧ untouched w (validateForm VJ w).2
  ∧ untouched w (reset VJ w).2
  ∧ (∀ rules, untouched w (setRules VJ rules w).2)
  ∧ (∀ change, untouched w (modelChanged VJ change w).2).
Proof.
  apply (kept_by_validation (untouched w)).
  - intros w1 H. exact H.
  - intros w1 f H. unfold marked. destruct (bool_decide _); exact H.
  - intros w1 v H. exact H.
  - intros w1 v H. exact H.
  - intros w1 rules H. exact H.
  - unfold untouched. split_and!; reflexivity.
Qed.

(** *** The constructor *)

Implicit Types (cfg : ValidationConfig.t (RuleSpec VJ)) (a : Ambient).

Lemma new_StoreModelValidator_run cfg a :
  new_StoreModelValidator VJ observable cfg a =
  if truthy_model (ValidationConfig.model cfg)
  then setModel VJ observable (ValidationConfig.model cfg) (initial cfg a)
  else
    match run_rules VJ (validator_of (initial cfg a)) with
    | Ok v => (Ok tt, installed v (localised (initial cfg a)))
    | Throw e => (Throw e, localised (initial cfg a))
    end.
Proof.
  unfold new_StoreModelValidator. unfold bind at 1.
  assert (Hinit : (match ValidationConfig.localizationProvider cfg with
                   | Some _ => ret tt
                   | None => modify (with_this (λ s,
                       set_config (ValidationConfig.set_localizationProvider
                                     NoopLocalizationProvider (config s)) s))
                   end)
                  {| this := {| validation := None; model := MNull; disposer := None;
                                validatedFields := fresh (dom (maps a)); dirty := None;
                                config := cfg |};
                     ambient := set_maps (<[fresh (dom (maps a)) := ∅]> (maps a)) a |}
                  = (Ok tt, initial cfg a)).
  { unfold initial. destruct (ValidationConfig.localizationProvider cfg); reflexivity. }
  rewrite Hinit. destruct (truthy_model _); [reflexivity|].
  rewrite bind_evaluation. destruct (run_rules VJ _); reflexivity.
Qed.

Lemma ledger_initial cfg a : ledger (initial cfg a) = ∅.
Proof.
  unfold ledger, initial, map_at; cbn [this ambient validatedFields set_maps maps].
  rewrite lookup_insert_eq. reflexivity.
Qed.

(** X11: constructed without a model (none, [null] or
    [undefined] in the configuration), when the pass returns [v], the
    validator holds no model, has validated [null] (the rules see absent
    values), stores [v], has an empty ledger, is pristine, has installed no
    observer, and has a localization provider, the configured one or the
    no-op provider. *)
Theorem constructor_without_model cfg a v :
  truthy_model (ValidationConfig.model cfg) = false →
  (evaluation VJ (initial cfg a)).1 = Ok v →
  ∃ w', new_StoreModelValidator VJ observable cfg a = (Ok tt, w')
        ∧ (∃ u, (createValidation VJ (initial cfg a)).1 = Ok u
                ∧ ValidatorJS.u_input u = InNull ∧ run_rules VJ u = Ok v)
        ∧ validation (this w') = Some v
        ∧ model (this w') = MNull
        ∧ disposer (this w') = None
        ∧ observers (ambient w') = observers a
        ∧ ledger w' = ∅
        ∧ (pristine VJ w').1 = Ok true
        ∧ ValidationConfig.localizationProvider (config (this w'))
          = Some (default NoopLocalizationProvider (ValidationConfig.localizationProvider cfg)).
Proof.
  intros Hfalsy Hev. rewrite evaluation_run in Hev; cbn [fst] in Hev.
  rewrite new_StoreModelValidator_run, Hfalsy, Hev.
  eexists; split; [reflexivity|]. split.
  { exists (validator_of (initial cfg a)). rewrite createValidation_run. auto. }
  split_and!; try reflexivity.
  - rewrite ledger_installed, ledger_localised. apply ledger_initial.
  - cbn [installed localised initial with_this with_ambient this config set_validation].
    destruct (ValidationConfig.localizationProvider cfg) eqn:Hp; [exact Hp|reflexivity].
Qed.

(** X12: constructed with a model, when the pass on the stored
    model returns [v], the validator holds the model as the observable box
    stored it, stores [v], has an empty ledger and a false dirty flag, and
    observes the model unless the configuration is manual, in which case no
    observer is installed. *)
Theorem constructor_with_model cfg a v :
  truthy_model (ValidationConfig.model cfg) = true →
  (evaluation VJ (assign_model observable (ValidationConfig.model cfg) (initial cfg a))).1
  = Ok v →
  ∃ w', new_StoreModelValidator VJ observable cfg a = (Ok tt, w')
        ∧ validation (this w') = Some v
        ∧ model (this w') = (observable (ValidationConfig.model cfg) (objects a)).1
        ∧ ledger w' = ∅
        ∧ dirty (this w') = Some false
        ∧ disposer (this w')
          = (if observes (initial cfg a) (model (this w'))
             then Some (nextDisposer a) else None)
        ∧ observers (ambient w')
          = (if observes (initial cfg a) (model (this w'))
             then <[nextDisposer a := model (this w')]> (observers a)
             else observers a).
Proof.
  intros Htruthy Hev. rewrite evaluation_run in Hev; cbn [fst] in Hev.
  rewrite new_StoreModelValidator_run, Htruthy, setModel_run.
  rewrite bool_decide_eq_true_2.
  2:{ cbn. intros Heq. rewrite <- Heq in Htruthy. discriminate. }
  rewrite reset_run, validator_of_resubscribed, Hev.
  eexists; split; [reflexivity|]. split; [reflexivity|].
  assert (Hm : model (this (cleared v (localised (subscribed (unsubscribed
                 (assign_model observable (ValidationConfig.model cfg) (initial cfg a)))))))
               = (observable (ValidationConfig.model cfg) (objects a)).1).
  { cbn [cleared installed localised with_this with_ambient this model set_dirty
         set_validation].
    destruct (resubscribed_same VJ
                (assign_model observable (ValidationConfig.model cfg) (initial cfg a)))
      as (_ & -> & _). reflexivity. }
  split; [exact Hm|]. split; [apply ledger_cleared|]. split; [reflexivity|].
  rewrite Hm. unfold observes.
  unfold subscribed, unsubscribed.
  cbn [assign_model initial with_this with_ambient this ambient disposer set_model
       model config set_objects set_maps objects observers nextDisposer].
  destruct (_ && _); split; reflexivity.
Qed.

(** X13: whenever the constructor returns, the validator it
    hands out has a validation, its dirty flag agrees with its (empty)
    ledger and its disposer follows its model; and when the pass of the
    constructor raises, the constructor raises the same exception. *)
Theorem constructor_establishes_invariants cfg a :
  ((new_StoreModelValidator VJ observable cfg a).1 = Ok tt →
     validation_defined (new_StoreModelValidator VJ observable cfg a).2
     ∧ flag_agrees (new_StoreModelValidator VJ observable cfg a).2
     ∧ ledger (new_StoreModelValidator VJ observable cfg a).2 = ∅
     ∧ subscription_follows_model (new_StoreModelValidator VJ observable cfg a).2)
  ∧ (∀ e,
       (evaluation VJ
          (if truthy_model (ValidationConfig.model cfg)
           then assign_model observable (ValidationConfig.model cfg) (initial cfg a)
           else initial cfg a)).1 = Throw e →
       (new_StoreModelValidator VJ observable cfg a).1 = Throw e).
Proof.
  rewrite new_StoreModelValidator_run.
  destruct (truthy_model (ValidationConfig.model cfg)) eqn:Htruthy.
  - assert (Hne : model (this (initial cfg a)) ≠ ValidationConfig.model cfg).
    { cbn. intros Heq. rewrite <- Heq in Htruthy. discriminate. }
    rewrite setModel_run, bool_decide_eq_true_2 by exact Hne.
    rewrite reset_run, validator_of_resubscribed. split.
    + destruct (run_rules VJ _) as [v|e]; cbn [fst snd]; [intros _|discriminate].
      split; [unfold validation_defined; cbn; eauto|].
      split; [apply flag_agrees_cleared|]. split; [apply ledger_cleared|].
      assert (H := resubscribed_follows
                     (assign_model observable (ValidationConfig.model cfg) (initial cfg a))).
      exact H.
    + intros e Hev. rewrite evaluation_run in Hev; cbn [fst] in Hev.
      rewrite Hev. reflexivity.
  - split.
    + destruct (run_rules VJ _) as [v|e]; cbn [fst snd]; [intros _|discriminate].
      split; [unfold validation_defined; cbn; eauto|].
      assert (Hl : ledger (installed v (localised (initial cfg a))) = ∅).
      { rewrite ledger_installed, ledger_localised. apply ledger_initial. }
      split; [|split; [exact Hl|]].
      * unfold flag_agrees. rewrite Hl. split; reflexivity.
      * unfold subscription_follows_model. cbn. discriminate.
    + intros e Hev. rewrite evaluation_run in Hev; cbn [fst] in Hev.
      rewrite Hev. reflexivity.
Qed.

(** *** [setModel] and [setRules], succeeding and failing *)

(** X14: [setModel] with a new reference, returning or raising,
    holds the model as the observable box stored it, has called and
    forgotten the previous disposer, and has installed one observer on the
    held model, under the next disposer, unless that model is absent or the
    configuration is manual, in which case no disposer is kept and no
    observer added. *)
Theorem setModel_moves_subscription w m :
  model (this w) ≠ m →
  model (this (setModel VJ observable m w).2) = (observable m (objects (ambient w))).1
  ∧ disposer (this (setModel VJ observable m w).2)
    = (if observes w (observable m (objects (ambient w))).1
       then Some (nextDisposer (ambient w)) else None)
  ∧ observers (ambient (setModel VJ observable m w).2)
    = (if observes w (observable m (objects (ambient w))).1
       then insert (nextDisposer (ambient w)) (observable m (objects (ambient w))).1
       else id)
        (match disposer (this w) with
         | Some d => delete d (observers (ambient w))
         | None => observers (ambient w)
         end).
Proof.
  intros Hne. rewrite setModel_run, bool_decide_eq_true_2 by exact Hne.
  assert (Hshape : ∀ w1,
            model (this (reset VJ w1).2) = model (this w1)
            ∧ disposer (this (reset VJ w1).2) = disposer (this w1)
            ∧ observers (ambient (reset VJ w1).2) = observers (ambient w1)).
  { intros w1. rewrite reset_run. destruct (run_rules VJ _); split_and!; reflexivity. }
  destruct (Hshape (subscribed (unsubscribed (assign_model observable m w))))
    as (-> & -> & ->).
  assert (Hassign :
            model (this (assign_model observable m w)) = (observable m (objects (ambient w))).1
            ∧ disposer (this (assign_model observable m w)) = disposer (this w)
            ∧ config (this (assign_model observable m w)) = config (this w)
            ∧ observers (ambient (assign_model observable m w)) = observers (ambient w)
            ∧ nextDisposer (ambient (assign_model observable m w)) = nextDisposer (ambient w)).
  { split_and!; reflexivity. }
  destruct Hassign as (<- & <- & Hc & <- & <-).
  unfold observes. rewrite <- Hc. clear Hc.
  generalize (assign_model observable m w). intros w1.
  unfold subscribed, unsubscribed.
  destruct (disposer (this w1)) as [d|] eqn:Hd;
    cbn [with_this with_ambient this ambient disposer set_disposer model config
         set_observers observers nextDisposer];
    destruct (_ && _); split_and!; try reflexivity; exact Hd.
Qed.


(** X16: a [setModel] with a new reference whose pass raises
    has nevertheless replaced the model; the ledger is not cleared and the
    validation is still that of the previous model; and if the box stores
    the reference as given, a second [setModel] with it returns without
    validating, leaving that state. *)
Theorem setModel_failure_keeps_stale_ledger w m e :
  model (this w) ≠ m →
  (evaluation VJ (assign_model observable m w)).1 = Throw e →
  (setModel VJ observable m w).1 = Throw e
  ∧ (getModel VJ (setModel VJ observable m w).2).1 = Ok (observable m (objects (ambient w))).1
  ∧ ledger (setModel VJ observable m w).2 = ledger w
  ∧ dirty (this (setModel VJ observable m w).2) = dirty (this w)
  ∧ validation (this (setModel VJ observable m w).2) = validation (this w)
  ∧ ((observable m (objects (ambient w))).1 = m →
       setModel VJ observable m (setModel VJ observable m w).2
       = (Ok tt, (setModel VJ observable m w).2)).
Proof.
  intros Hne Hev. rewrite evaluation_run in Hev; cbn [fst] in Hev.
  rewrite setModel_run, bool_decide_eq_true_2 by exact Hne.
  rewrite reset_run, validator_of_resubscribed, Hev. cbn [fst snd].
  destruct (resubscribed_ledger w m) as (Hl & Hd & Hv).
  destruct (resubscribed_same VJ (assign_model observable m w)) as (_ & Hm & _).
  split_and!; try reflexivity.
  - unfold getModel, gets. cbn [fst]. f_equal. exact Hm.
  - rewrite ledger_localised. exact Hl.
  - exact Hd.
  - exact Hv.
  - intros Hbox. rewrite setModel_run. rewrite bool_decide_eq_false_2; [reflexivity|].
    intros Hneq. apply Hneq. cbn [localised with_ambient this]. rewrite Hm.
    exact Hbox.
Qed.

(** X17: when the pass under the new rules returns [v],
    [setRules] returns with the new rules stored, [v] as validation, the
    ledger empty and the engine pristine, and with the model and the
    subscription as they were. *)
Theorem setRules_success_resets w rules v :
  (evaluation VJ (with_rules rules w)).1 = Ok v →
  ∃ w', setRules VJ rules w = (Ok tt, w')
        ∧ ValidationConfig.rules (config (this w')) = rules
        ∧ validation (this w') = Some v
        ∧ ledger w' = ∅
        ∧ (pristine VJ w').1 = Ok true
        ∧ untouched w w'.
Proof.
  intros Hev. rewrite evaluation_run in Hev; cbn [fst] in Hev.
  rewrite setRules_run, reset_run, Hev.
  eexists; split; [reflexivity|].
  split_and!; try reflexivity.
  - apply ledger_cleared.
  - unfold untouched. split_and!; reflexivity.
Qed.

(** *** The language of a pass *)

Lemma lang_after_validateForm w :
  lang (ambient (validateForm VJ w).2) = lang_in_force w.
Proof.
  rewrite validateForm_run.
  destruct (run_rules VJ (validator_of w)) as [v|e]; [|reflexivity].
  cbn [snd installed with_this ambient].
  generalize (map_to_list (ValidatorJS.errors v)).*1. intros fs.
  change (lang_in_force w) with (lang (ambient (localised w))).
  generalize (localised w). intros w1. revert w1.
  induction fs as [|g fs IH]; intros w1; [reflexivity|].
  cbn [foldl]. rewrite IH. unfold marked. destruct (bool_decide _); reflexivity.
Qed.

(** X21: under the no-op localization provider a pass sets
    validatorjs' language to the first two characters of
    [navigator.language] when that has at least two; with a one-character
    language, or with neither [navigator.language] nor
    [navigator.userLanguage], the language is left as it was. *)
Theorem noop_provider_uses_navigator_language w :
  ValidationConfig.localizationProvider (config (this w)) = Some NoopLocalizationProvider →
  (∀ l, nav_language (navigator (ambient w)) = Some l → l ≠ "" →
        lang (ambient (validateForm VJ w).2)
        = if (2 <=? String.length l)%nat then String.substring 0 2 l else lang (ambient w))
  ∧ (truthy_string (nav_language (navigator (ambient w))) = false →
     nav_userLanguage (navigator (ambient w)) = None →
     lang (ambient (validateForm VJ w).2) = lang (ambient w)).
Proof.
  intros Hp. rewrite lang_after_validateForm.
  unfold lang_in_force, locale_choice. rewrite Hp.
  unfold NoopLocalizationProvider; cbn [language]. split.
  - intros l Hl Hne. rewrite Hl. cbn [truthy_string].
    apply String.eqb_neq in Hne. rewrite Hne. cbn [negb].
    destruct (2 <=? String.length l)%nat; reflexivity.
  - intros Hfalsy Hnone. rewrite Hfalsy, Hnone. reflexivity.
Qed.

(** *** Mutation notifications *)

(** X18: on a change of type ['update'] or ['add'],
    [modelChanged] leaves the state of [validateField] for the field the
    change names, and that of [validateForm] when the change names none or
    names the empty string; its outcome is that of the pass: when the pass
    returns [v] it returns with [v] stored and the named field (or, for the
    whole form, every field with an error) in the ledger, and when the pass
    raises it raises the same exception, to the code that made the change,
    with the validation and the ledger as they were. *)
Theorem modelChanged_update_validates w change :
  validates change = true →
  (modelChanged VJ change w).2
  = (if truthy_string (change_name change)
     then (validateField VJ (default "" (change_name change)) w).2
     else (validateForm VJ w).2)
  ∧ (modelChanged VJ change w).1 = discarded (evaluation VJ w).1
  ∧ match (evaluation VJ w).1 with
    | Ok v =>
        validation (this (modelChanged VJ change w).2) = Some v
        ∧ if truthy_string (change_name change)
          then default "" (change_name change) ∈ dom (ledger (modelChanged VJ change w).2)
          else dom (ValidatorJS.errors v) ⊆ dom (ledger (modelChanged VJ change w).2)
    | Throw e =>
        validation (this (modelChanged VJ change w).2) = validation (this w)
        ∧ ledger (modelChanged VJ change w).2 = ledger w
    end.
Proof.
  intros Hval. rewrite modelChanged_run, Hval, evaluation_run. cbn [fst].
  split; [destruct (truthy_string _); reflexivity|].
  destruct (truthy_string (change_name change)).
  - rewrite validateField_run.
    destruct (run_rules VJ (validator_of w)) as [v|e]; cbn [fst snd discarded];
      split_and!; try reflexivity.
    rewrite ledger_installed, ledger_marked. set_solver.
  - rewrite validateForm_run.
    destruct (run_rules VJ (validator_of w)) as [v|e]; cbn [fst snd discarded];
      split_and!; try reflexivity.
    rewrite ledger_installed, ledger_marked_all, keys_to_set. set_solver.
Qed.

(** *** What the wrapper renders *)

Section Render.
Context {N : Type}.
Implicit Types (props : ValidationWrapper.Props N).

Lemma render_run props w :
  ValidationWrapper.render VJ props w =
  if bool_decide (ValidationWrapper.field props ∈ dom (ledger w)) then
    match validation (this w) with
    | Some v =>
        (Ok (match ValidatorJS.errors v !! ValidationWrapper.field props with
             | Some messages => errors_shown props messages
             | None => nothing_shown
             end), w)
    | None => (Throw (TypeError "Cannot read properties of undefined"), w)
    end
  else (Ok nothing_shown, w).
Proof.
  unfold ValidationWrapper.render. unfold bind at 1. unfold gets at 1.
  unfold bind at 1. rewrite showErrorsOnField_run.
  destruct (bool_decide _); [|reflexivity].
  destruct (validation (this w)) as [v|]; [|reflexivity].
  unfold bind, ret, ValidationWrapper.get, ValidatorJS.has.
  destruct (ValidatorJS.errors v !! ValidationWrapper.field props) as [messages|] eqn:Hm.
  - rewrite bool_decide_eq_true_2 by eauto. reflexivity.
  - rewrite bool_decide_eq_false_2 by (intros [? ?]; discriminate). reflexivity.
Qed.

(** X19: when the pass returns [v], the wrapper of a field
    rendered after [validateForm] shows the error class and the messages
    [v] has for the field, in their order, exactly when [v] has an entry
    for it, and the children alone otherwise, whatever the ledger held
    before; after [validateField] called for that very field it renders
    the same. *)
Theorem render_after_validation w v props :
  (evaluation VJ w).1 = Ok v →
  ValidationWrapper.render VJ props (validateForm VJ w).2
  = (Ok (match ValidatorJS.errors v !! ValidationWrapper.field props with
         | Some messages => errors_shown props messages
         | None => nothing_shown
         end), (validateForm VJ w).2)
  ∧ (ValidationWrapper.render VJ props
       (validateField VJ (ValidationWrapper.field props) w).2).1
    = (ValidationWrapper.render VJ props (validateForm VJ w).2).1.
Proof.
  intros Hev. rewrite evaluation_run in Hev; cbn [fst] in Hev.
  assert (Hform : ValidationWrapper.render VJ props (validateForm VJ w).2
                  = (Ok (match ValidatorJS.errors v !! ValidationWrapper.field props with
                         | Some messages => errors_shown props messages
                         | None => nothing_shown
                         end), (validateForm VJ w).2)).
  { rewrite validateForm_run, Hev. cbn [snd]. rewrite render_run.
    cbn [installed with_this this validation set_validation].
    case_bool_decide as Hin; [reflexivity|].
    destruct (ValidatorJS.errors v !! ValidationWrapper.field props) eqn:Hm; [|reflexivity].
    exfalso. apply Hin. rewrite ledger_installed, ledger_marked_all, keys_to_set.
    apply elem_of_union_l, elem_of_dom. eauto. }
  split; [exact Hform|]. rewrite Hform.
  rewrite validateField_run, Hev. cbn [fst snd]. rewrite render_run.
  rewrite bool_decide_eq_true_2; [reflexivity|].
  rewrite ledger_installed, ledger_marked. set_solver.
Qed.

(** X20: the wrapper of a field the ledger does not hold
    renders the children alone and reads no validation: it neither shows
    the errors the field has nor raises while the validation is still
    undefined.  So after a [reset] that returned, no wrapper shows an
    error, whatever errors the pass found. *)
Theorem render_hides_untouched_field w props :
  (ValidationWrapper.field props ∉ dom (ledger w) →
     ValidationWrapper.render VJ props w = (Ok nothing_shown, w))
  ∧ (∀ v, (evaluation VJ w).1 = Ok v →
          validation (this (reset VJ w).2) = Some v
          ∧ ValidationWrapper.render VJ props (reset VJ w).2
            = (Ok nothing_shown, (reset VJ w).2)).
Proof.
  split.
  - intros Hout. rewrite render_run, bool_decide_eq_false_2 by exact Hout. reflexivity.
  - intros v Hev. rewrite evaluation_run in Hev; cbn [fst] in Hev.
    rewrite reset_run, Hev. cbn [snd]. split; [reflexivity|].
    rewrite render_run, ledger_cleared, bool_decide_eq_false_2; [reflexivity|].
    set_solver.
Qed.

End Render.

End Further.

(** * The further properties on the sample engine *)

(** X1, witness: two custom messages under the no-op provider. *)
Lemma translateMessageKeys_translates_keys_witness :
  ∃ translations,
    translateMessageKeys Sample.engine (Some Scenarios.custom_messages) Sample.started
    = (Ok (Some translations), Sample.started)
    ∧ ∀ key, translations !! key
             = (λ _, translate NoopLocalizationProvider key)
                 <$> Scenarios.custom_messages !! key.
Proof.
  apply (translateMessageKeys_translates_keys Sample.engine Sample.started
           Scenarios.custom_messages NoopLocalizationProvider).
  vm_compute. reflexivity.
Defined.

(** X2, witness: the filled form kept as a map at the held location. *)
Lemma observable_map_snapshot_keeps_entries_witness :
  object_of_map Sample.filled = Sample.filled
  ∧ (createValidation Sample.engine
       (with_ambient (set_objects (<[1%nat := ObservableMap Sample.filled]>
                                     (objects (ambient Sample.started)))) Sample.started)).1
    = (createValidation Sample.engine
         (with_ambient (set_objects (<[1%nat := ObservableObject Sample.filled]>
                                       (objects (ambient Sample.started)))) Sample.started)).1.
Proof.
  apply (observable_map_snapshot_keeps_entries Sample.engine Sample.filled
           Sample.started 1%nat).
  vm_compute. reflexivity.
Defined.

(** X3, witness: [name] marked again on the touched validator. *)
Lemma markDirty_idempotent_witness :
  markDirty Sample.engine "name" Sample.touched = (Ok tt, Sample.touched).
Proof.
  apply (markDirty_idempotent Sample.engine Sample.touched "name").
  exists true. vm_compute. reflexivity.
Defined.

(** X4, witness: [name] validated on the form with the empty name. *)
Lemma validateField_touches_one_entry_witness :
  (∀ g, g ≠ "name" →
        ledger (validateField Sample.engine "name" Sample.started_unnamed).2 !! g
        = ledger Sample.started_unnamed !! g)
  ∧ ledger (validateField Sample.engine "name" Sample.started_unnamed).2 !! "name"
    = Some (default true (ledger Sample.started_unnamed !! "name")).
Proof.
  apply (validateField_touches_one_entry Sample.engine Sample.started_unnamed
           "name" Sample.name_required).
  vm_compute. reflexivity.
Defined.

(** X5, witness: the touched validator, whose form has no error. *)
Lemma validateForm_marks_exactly_error_fields_witness :
  dom (ledger (validateForm Sample.engine Sample.touched).2)
  = dom (ValidatorJS.errors Sample.no_errors) ∪ dom (ledger Sample.touched)
  ∧ ledger (validateForm Sample.engine Sample.touched).2 !! "name" = Some true
  ∧ ledger (validateForm Sample.engine Sample.touched).2 = ledger Sample.touched
  ∧ dirty (this (validateForm Sample.engine Sample.touched).2) = dirty (this Sample.touched).
Proof.
  destruct (validateForm_marks_exactly_error_fields Sample.engine
              Sample.touched Sample.no_errors) as (Hdom & Hkeep & Hsame).
  - vm_compute. reflexivity.
  - split; [exact Hdom|]. split.
    + apply (Hkeep "name" true). vm_compute. reflexivity.
    + apply Hsame. reflexivity.
Defined.

(** X7, witness: the touched validator is dirty and its ledger holds [name]. *)
Lemma flag_agrees_preserved_witness :
  (∀ f, flag_agrees (validateField Sample.engine f Sample.touched).2)
  ∧ flag_agrees (validateForm Sample.engine Sample.touched).2
  ∧ flag_agrees (reset Sample.engine Sample.touched).2
  ∧ (∀ rules, flag_agrees (setRules Sample.engine rules Sample.touched).2)
  ∧ (∀ change, flag_agrees (modelChanged Sample.engine change Sample.touched).2)
  ∧ (∀ m, flag_agrees (setModel Sample.engine Sample.observable m Sample.touched).2).
Proof.
  apply (flag_agrees_preserved Sample.engine Sample.observable Sample.touched).
  split.
  - vm_compute. discriminate.
  - intros Hempty. apply (f_equal (lookup "name")) in Hempty.
    vm_compute in Hempty. discriminate Hempty.
Defined.

(** X8, witness: the started validator. *)
Lemma validation_defined_preserved_witness :
  (∃ v, validation (this Sample.started) = Some v
        ∧ errorCount Sample.engine Sample.started
          = (Ok (ValidatorJS.errorCount v), Sample.started)
        ∧ errors Sample.engine Sample.started = (Ok (ValidatorJS.errors v), Sample.started)
        ∧ isValid Sample.engine Sample.started
          = (Ok (ValidatorJS.errorCount v =? 0), Sample.started))
  ∧ validation_defined (validateForm Sample.engine Sample.started).2
  ∧ validation_defined (setRules Sample.engine Sample.rules_unknown Sample.started).2.
Proof.
  destruct (validation_defined_preserved Sample.engine Sample.observable Sample.started)
    as (Hget & _ & Hform & _ & Hrules & _).
  - exists Sample.no_errors. vm_compute. reflexivity.
  - split; [exact Hget|]. split; [exact Hform|]. apply Hrules.
Defined.

(** X9, witness: the started validator observes the form at 1; given the
    form at 2 it observes that one. *)
Lemma subscription_follows_model_preserved_witness :
  subscription_follows_model
    (setModel Sample.engine Sample.observable (MRef 2) Sample.started).2
  ∧ subscription_follows_model (validateForm Sample.engine Sample.started).2
  ∧ subscription_follows_model (reset Sample.engine Sample.started).2.
Proof.
  destruct (subscription_follows_model_preserved Sample.engine Sample.observable
              Sample.started) as (Hnew & Hkept).
  split.
  - apply Hnew. vm_compute. discriminate.
  - destruct Hkept as (_ & Hform & Hreset & _).
    + intros d Hd. vm_compute in Hd. injection Hd as <-.
      vm_compute. auto.
    + split; assumption.
Defined.

(** X11, witness: no model configured; the rules see absent values. *)
Lemma constructor_without_model_witness :
  ∃ w', new_StoreModelValidator Sample.engine Sample.observable
          Scenarios.config_no_model Sample.surroundings = (Ok tt, w')
        ∧ (∃ u, (createValidation Sample.engine
                   (initial Scenarios.config_no_model Sample.surroundings)).1 = Ok u
                ∧ ValidatorJS.u_input u = InNull
                ∧ run_rules Sample.engine u = Ok Sample.name_required)
        ∧ validation (this w') = Some Sample.name_required
        ∧ model (this w') = MNull
        ∧ disposer (this w') = None
        ∧ observers (ambient w') = observers Sample.surroundings
        ∧ ledger w' = ∅
        ∧ (pristine Sample.engine w').1 = Ok true
        ∧ ValidationConfig.localizationProvider (config (this w'))
          = Some (default NoopLocalizationProvider
                    (ValidationConfig.localizationProvider Scenarios.config_no_model)).
Proof.
  apply (constructor_without_model Sample.engine Sample.observable
           Scenarios.config_no_model Sample.surroundings Sample.name_required).
  - reflexivity.
  - vm_compute. reflexivity.
Defined.

(** X12, witness: the filled form configured as the model. *)
Lemma constructor_with_model_witness :
  ∃ w', new_StoreModelValidator Sample.engine Sample.observable
          (Sample.config_with (MRef 1) Sample.rules_name_age) Sample.surroundings
        = (Ok tt, w')
        ∧ validation (this w') = Some Sample.no_errors
        ∧ model (this w') = MRef 1
        ∧ ledger w' = ∅
        ∧ dirty (this w') = Some false
        ∧ disposer (this w') = Some 0%nat
        ∧ observers (ambient w') = {[ 0%nat := MRef 1 ]}.
Proof.
  destruct (constructor_with_model Sample.engine Sample.observable
              (Sample.config_with (MRef 1) Sample.rules_name_age) Sample.surroundings
              Sample.no_errors) as (w' & Hrun & Hv & Hm & Hl & Hd & Hdisp & Hobs).
  - reflexivity.
  - vm_compute. reflexivity.
  - exists w'. rewrite Hm in Hdisp, Hobs.
    split; [exact Hrun|]. split; [exact Hv|]. split; [exact Hm|].
    split; [exact Hl|]. split; [exact Hd|]. split; [exact Hdisp|]. exact Hobs.
Defined.

(** X13, witness: the constructor returning on known rules, and raising on
    a rule it does not know. *)
Lemma constructor_establishes_invariants_witness :
  (validation_defined Sample.started ∧ flag_agrees Sample.started
   ∧ ledger Sample.started = ∅ ∧ subscription_follows_model Sample.started)
  ∧ (new_StoreModelValidator Sample.engine Sample.observable
       Scenarios.config_unknown_rule Sample.surroundings).1 = Throw Sample.not_defined.
Proof.
  split.
  - apply (constructor_establishes_invariants Sample.engine Sample.observable
             (Sample.config_with (MRef 1) Sample.rules_name_age) Sample.surroundings).
    vm_compute. reflexivity.
  - apply (constructor_establishes_invariants Sample.engine Sample.observable
             Scenarios.config_unknown_rule Sample.surroundings).
    vm_compute. reflexivity.
Defined.

(** X14, witness: the started validator given the other form. *)
Lemma setModel_moves_subscription_witness :
  model (this (setModel Sample.engine Sample.observable (MRef 2) Sample.started).2) = MRef 2
  ∧ disposer (this (setModel Sample.engine Sample.observable (MRef 2) Sample.started).2)
    = Some 1%nat
  ∧ observers (ambient (setModel Sample.engine Sample.observable (MRef 2) Sample.started).2)
    = {[ 1%nat := MRef 2 ]}.
Proof.
  destruct (setModel_moves_subscription Sample.engine Sample.observable
              Sample.started (MRef 2)) as (Hm & Hd & Ho).
  - vm_compute. discriminate.
  - split; [exact Hm|]. split; [exact Hd|]. rewrite Ho. vm_compute. reflexivity.
Defined.


(** X16, witness: the misconfigured validator, touched before, given the
    other form. *)
Lemma setModel_failure_keeps_stale_ledger_witness :
  (setModel Sample.engine Sample.observable (MRef 2) Scenarios.misconfigured_touched).1
  = Throw Sample.not_defined
  ∧ ledger (setModel Sample.engine Sample.observable (MRef 2)
              Scenarios.misconfigured_touched).2
    = ledger Scenarios.misconfigured_touched
  ∧ setModel Sample.engine Sample.observable (MRef 2)
      (setModel Sample.engine Sample.observable (MRef 2) Scenarios.misconfigured_touched).2
    = (Ok tt, (setModel Sample.engine Sample.observable (MRef 2)
                 Scenarios.misconfigured_touched).2).
Proof.
  destruct (setModel_failure_keeps_stale_ledger Sample.engine Sample.observable
              Scenarios.misconfigured_touched (MRef 2) Sample.not_defined)
    as (Hr & _ & Hl & _ & _ & Hagain).
  - vm_compute. discriminate.
  - vm_compute. reflexivity.
  - split; [exact Hr|]. split; [exact Hl|]. apply Hagain. reflexivity.
Defined.

(** X17, witness: the touched validator given rules for [age] alone. *)
Lemma setRules_success_resets_witness :
  ∃ w', setRules Sample.engine Scenarios.rules_age Sample.touched = (Ok tt, w')
        ∧ ValidationConfig.rules (config (this w')) = Scenarios.rules_age
        ∧ validation (this w') = Some Sample.no_errors
        ∧ ledger w' = ∅
        ∧ (pristine Sample.engine w').1 = Ok true
        ∧ untouched Sample.touched w'.
Proof.
  apply (setRules_success_resets Sample.engine Sample.touched
           Scenarios.rules_age Sample.no_errors).
  vm_compute. reflexivity.
Defined.

(** X18, witness: [name] updated on the form with the empty name. *)
Lemma modelChanged_update_validates_witness :
  (modelChanged Sample.engine Scenarios.name_updated Sample.started_unnamed).2
  = (validateField Sample.engine "name" Sample.started_unnamed).2
  ∧ (modelChanged Sample.engine Scenarios.name_updated Sample.started_unnamed).1 = Ok tt.
Proof.
  destruct (modelChanged_update_validates Sample.engine Sample.started_unnamed
              Scenarios.name_updated) as (Hw & Hr & _).
  - reflexivity.
  - split; [exact Hw|]. rewrite Hr. vm_compute. reflexivity.
Defined.

(** X19, witness: the wrapper of [name] on the form with the empty name. *)
Lemma render_after_validation_witness :
  (ValidationWrapper.render Sample.engine Scenarios.name_props
     (validateForm Sample.engine Sample.started_unnamed).2).1
  = Ok (errors_shown Scenarios.name_props ["The name field is required."])
  ∧ (ValidationWrapper.render Sample.engine Scenarios.name_props
       (validateField Sample.engine "name" Sample.started_unnamed).2).1
    = Ok (errors_shown Scenarios.name_props ["The name field is required."]).
Proof.
  destruct (render_after_validation Sample.engine Sample.started_unnamed
              Sample.name_required Scenarios.name_props) as (Hform & Hfield).
  - vm_compute. reflexivity.
  - cbn [ValidationWrapper.field Scenarios.name_props] in Hfield.
    rewrite Hfield, Hform. split; reflexivity.
Defined.

(** X20, witness: the same wrapper before [name] was touched, and after a
    [reset]. *)
Lemma render_hides_untouched_field_witness :
  ValidationWrapper.render Sample.engine Scenarios.name_props Sample.started_unnamed
  = (Ok nothing_shown, Sample.started_unnamed)
  ∧ validation (this (reset Sample.engine Sample.started_unnamed).2)
    = Some Sample.name_required
  ∧ ValidationWrapper.render Sample.engine Scenarios.name_props
      (reset Sample.engine Sample.started_unnamed).2
    = (Ok nothing_shown, (reset Sample.engine Sample.started_unnamed).2).
Proof.
  destruct (render_hides_untouched_field Sample.engine Sample.started_unnamed
              Scenarios.name_props) as (Hhide & Hreset).
  split.
  - apply Hhide. apply not_elem_of_dom. vm_compute. reflexivity.
  - apply Hreset. vm_compute. reflexivity.
Defined.

(** X21, witness: a browser reporting [en-US], and one reporting nothing. *)
Lemma noop_provider_uses_navigator_language_witness :
  lang (ambient (validateForm Sample.engine Sample.started).2) = "en"
  ∧ lang (ambient (validateForm Sample.engine Scenarios.started_without_language).2)
    = lang (ambient Scenarios.started_without_language).
Proof.
  split.
  - destruct (noop_provider_uses_navigator_language Sample.engine Sample.started)
      as (Hset & _); [vm_compute; reflexivity|].
    apply (Hset "en-US"); [vm_compute; reflexivity|discriminate].
  - destruct (noop_provider_uses_navigator_language Sample.engine
                Scenarios.started_without_language) as (_ & Hkept);
      [vm_compute; reflexivity|].
    apply Hkept; vm_compute; reflexivity.
Defined.
